(** * News-Sentiment-Stock-Analyzer: a shallow embedding of the analysis pipeline

    The first part embeds the four source files:
    - [sentiment_analyzer.py]  ([Module Sentiment])
    - [news_collector.py]      ([Module News])
    - [stock_data.py]          ([Module Stock])
    - [main.py]                ([Module Main])
    followed by the wording of the specification where it is compared
    with the code ([Module AsStated]) and by sample services and inputs
    ([Module Examples]).  The second part holds the properties.

    Scores and prices are IEEE binary64 numbers, as in Python, and are
    represented by Rocq's primitive floats.  Text is a sequence of 8-bit
    characters; case mapping and character classes are those of ASCII.
    The external services (news search, financial data, the two sentiment
    libraries) and the built-ins [round] and [sum] on floats are section
    variables: deterministic functions, which answer with an exception
    where the Python call may raise.  Of the console output, the lines
    printed by [main.py] are kept; the progress messages of the other
    three components are left out. *)

From Stdlib Require Import ZArith Floats String Ascii List Bool Lia.
From Stdlib Require Import DecimalString.
From stdpp Require Import gmap strings.
Import ListNotations.

Set Warnings "-inexact-float".
Local Open Scope string_scope.

(** ** Python values and exceptions *)

(** The scalar values found in the JSON documents and provider records
    the program reads: [None], a string, an integer. *)
Inductive pyval :=
| PNone
| PStr (s : string)
| PInt (z : Z).

#[global] Instance pyval_eq_dec : EqDecision pyval.
Proof. solve_decision. Defined.

(** [str(v)], as used by f-string interpolation. *)
Definition py_str (v : pyval) : string :=
  match v with
  | PNone => "None"
  | PStr s => s
  | PInt z => NilZero.string_of_int (Z.to_int z)
  end.

(** Instances of Python's [Exception] raised by library calls. *)
Inductive exn :=
| TypeError
| AttributeError
| ZeroDivisionError
| ServiceError (msg : string).

Inductive Exc (A : Type) :=
| Ok (a : A)
| Raise (e : exn).
Arguments Ok {A} a.
Arguments Raise {A} e.

#[global] Instance exc_ret : MRet Exc := fun A a => Ok a.

#[global] Instance exc_bind : MBind Exc := fun A B k m =>
  match m with
  | Ok a => k a
  | Raise e => Raise e
  end.

(** [try: body  except: handler]; every exception of the model is an
    instance of [Exception], so the bare [except:] and [except Exception]
    clauses catch the same ones. *)
Definition try_except {A} (body : Exc A) (handler : exn -> Exc A) : Exc A :=
  match body with
  | Ok a => Ok a
  | Raise e => handler e
  end.

(** ** Python string methods, on ASCII text *)

Module Str.

Definition code (c : ascii) : nat := nat_of_ascii c.

Definition between (lo hi n : nat) : bool := Nat.leb lo n && Nat.leb n hi.

(** Characters removed by [str.strip()]: tab to carriage return, the four
    separators 28 to 31 and the space. *)
Definition is_space (c : ascii) : bool :=
  between 9 13 (code c) || between 28 32 (code c).

Definition is_upper (c : ascii) : bool := between 65 90 (code c).
Definition is_lower (c : ascii) : bool := between 97 122 (code c).
Definition is_alpha (c : ascii) : bool := is_upper c || is_lower c.

Definition upper_char (c : ascii) : ascii :=
  if is_lower c then ascii_of_nat (code c - 32) else c.

Definition lower_char (c : ascii) : ascii :=
  if is_upper c then ascii_of_nat (code c + 32) else c.

Fixpoint map_chars (f : ascii -> ascii) (s : string) : string :=
  match s with
  | EmptyString => EmptyString
  | String c s' => String (f c) (map_chars f s')
  end.

(** [s.upper()], [s.lower()] *)
Definition upper (s : string) : string := map_chars upper_char s.
Definition lower (s : string) : string := map_chars lower_char s.

Fixpoint all_chars (p : ascii -> bool) (s : string) : bool :=
  match s with
  | EmptyString => true
  | String c s' => p c && all_chars p s'
  end.

(** [s.isalpha()]: at least one character, and all of them letters. *)
Definition isalpha (s : string) : bool :=
  match s with
  | EmptyString => false
  | String _ _ => all_chars is_alpha s
  end.

Fixpoint lstrip (s : string) : string :=
  match s with
  | EmptyString => EmptyString
  | String c s' => if is_space c then lstrip s' else s
  end.

Fixpoint rstrip (s : string) : string :=
  match s with
  | EmptyString => EmptyString
  | String c s' =>
      match rstrip s' with
      | EmptyString => if is_space c then EmptyString else String c EmptyString
      | r => String c r
      end
  end.

(** [s.strip()] *)
Definition strip (s : string) : string := rstrip (lstrip s).

(** [s.replace(old, new)] for a one-character [old]. *)
Fixpoint replace (old : ascii) (new : string) (s : string) : string :=
  match s with
  | EmptyString => EmptyString
  | String c s' =>
      if Ascii.eqb c old then new ++ replace old new s'
      else String c (replace old new s')
  end.

(** [sub in s] *)
Definition contains (sub s : string) : bool :=
  match index 0 sub s with
  | Some _ => true
  | None => false
  end.

(** [s * n] *)
Fixpoint times (s : string) (n : nat) : string :=
  match n with
  | O => EmptyString
  | S n' => s ++ times s n'
  end.

(** [str(n)] for a natural number. *)
Definition of_nat (n : nat) : string := NilZero.string_of_uint (Nat.to_uint n).

Definition nl : string := String (ascii_of_nat 10) EmptyString.

End Str.

(** ** Comparisons on binary64 numbers *)

Module F.

Local Open Scope float_scope.

(** Python's [x >= y], [x > y], [x <= y], [x < y] on floats. *)
Definition ge (x y : float) : bool := y <=? x.
Definition gt (x y : float) : bool := y <? x.
Definition le (x y : float) : bool := x <=? y.
Definition lt (x y : float) : bool := x <? y.

(** [bool(x)] for a float: every value but the two zeros is truthy. *)
Definition truthy (x : float) : bool := negb (x =? 0).

(** [float(n)] for a small natural number such as a list length. *)
Definition of_nat (n : nat) : float := of_uint63 (Uint63.of_Z (Z.of_nat n)).

End F.

(** ** sentiment_analyzer.py *)

Module Sentiment.

Local Open Scope float_scope.

(** The four scores of [SentimentIntensityAnalyzer.polarity_scores]. *)
Record VaderScores := {
  pos : float;
  neg : float;
  neu : float;
  compound : float
}.

(** The dictionary built by [analyze_text]. *)
Record SentimentResult := {
  textblob_score : float;
  vader_positive : float;
  vader_negative : float;
  vader_neutral : float;
  vader_compound : float;
  overall_sentiment : string
}.

(** An article of the news service: each key may be missing ([None] here),
    and a present [title] or [description] is a string or JSON null.  The
    [source] key, when present, holds the nested source object. *)
Record Article := {
  title : option pyval;
  description : option pyval;
  source : option (gmap string pyval)
}.

(** The dictionary built by [analyze_article]. *)
Record ArticleSentiment := {
  as_title : pyval;
  as_source : pyval;
  sentiment : option SentimentResult
}.

(** [_get_sentiment_label] *)
Definition _get_sentiment_label (score : float) : string :=
  if F.ge score 0.05 then "POSITIVE"
  else if F.le score (-0.05) then "NEGATIVE"
  else "NEUTRAL".

(** [d.get(key, default)] on an optional field and on a dictionary. *)
Definition field_get (f : option pyval) (dflt : pyval) : pyval :=
  match f with
  | Some v => v
  | None => dflt
  end.

Definition dict_get (d : gmap string pyval) (key : string) (dflt : pyval) : pyval :=
  match d !! key with
  | Some v => v
  | None => dflt
  end.

(** [not text] *)
Definition is_empty (text : string) : bool :=
  match text with
  | EmptyString => true
  | String _ _ => false
  end.

Section Analyzer.

(** [TextBlob(text).sentiment.polarity] and [vader.polarity_scores(text)]. *)
Variable textblob_polarity : string -> float.
Variable polarity_scores : string -> VaderScores.

(** [analyze_text] *)
Definition analyze_text (text : string) : option SentimentResult :=
  if is_empty text then None
  else
    let textblob_score := textblob_polarity text in
    let vader_scores := polarity_scores text in
    Some {| textblob_score := textblob_score;
            vader_positive := pos vader_scores;
            vader_negative := neg vader_scores;
            vader_neutral := neu vader_scores;
            vader_compound := compound vader_scores;
            overall_sentiment := _get_sentiment_label (compound vader_scores) |}.

(** The f-string [f"{article.get('title', '')} {article.get('description', '')}"]. *)
Definition article_text (article : Article) : string :=
  py_str (field_get (title article) (PStr "")) ++ " " ++
  py_str (field_get (description article) (PStr "")).

(** [analyze_article] *)
Definition analyze_article (article : Article) : ArticleSentiment :=
  let text := article_text article in
  let sentiment := analyze_text text in
  {| as_title := field_get (title article) (PStr "No title");
     as_source := dict_get (default ∅ (source article)) "name" (PStr "Unknown");
     sentiment := sentiment |}.

End Analyzer.

End Sentiment.

(** ** news_collector.py *)

Module News.

Import Sentiment.

(** The query parameters of the search request. *)
Record Parameters := {
  q : string;
  from : string;
  to : string;
  sortBy : string;
  apiKey : string;
  language : string
}.

(** The value stored under the [articles] key of the response body. *)
Inductive ArticlesField :=
| Missing
| Null
| Items (l : list Article).

(** The decoded body: a JSON object, or any other JSON document. *)
Inductive Body :=
| NotAnObject
| Object (articles : ArticlesField).

Record Response := {
  status_code : Z;
  json : Exc Body
}.

(** [data.get('articles', [])]: an attribute error on anything but an
    object; [None] stands for JSON null. *)
Definition get_articles (data : Body) : Exc (option (list Article)) :=
  match data with
  | NotAnObject => Raise AttributeError
  | Object Missing => Ok (Some [])
  | Object Null => Ok None
  | Object (Items l) => Ok (Some l)
  end.

(** [len(articles)], evaluated for the progress message: a type error on
    [None].  The list itself is what the function then returns. *)
Definition checked_len (articles : option (list Article)) : Exc (list Article) :=
  match articles with
  | None => Raise TypeError
  | Some l => Ok l
  end.

Section Collector.

Variable api_key : string.
(** The two formatted dates, [week_ago] and [today]. *)
Variable week_ago today : string.
(** [requests.get(url, params=...)] *)
Variable requests_get : string -> Parameters -> Exc Response.

Definition base_url : string := "https://newsapi.org/v2/everything".

(** [get_news_for_company] *)
Definition get_news_for_company (company_name : string) : Exc (list Article) :=
  let parameters :=
    {| q := company_name; from := week_ago; to := today;
       sortBy := "popularity"; apiKey := api_key; language := "en" |} in
  try_except
    (response ← requests_get base_url parameters;
     if (status_code response =? 200)%Z then
       data ← json response;
       articles ← get_articles data;
       articles ← checked_len articles;
       mret articles
     else mret [])
    (fun e => mret []).

End Collector.

End News.

(** ** stock_data.py *)

Module Stock.

Local Open Scope float_scope.

(** One daily bar of the price history. *)
Record Bar := {
  Open : float;
  High : float;
  Low : float;
  Close : float;
  Volume : float
}.

(** The dictionary returned by [validate_ticker] when [valid] is true. *)
Record TickerInfo := {
  ticker : string;
  name : pyval;
  sector : pyval;
  industry : pyval;
  market_cap : pyval;
  exchange : pyval
}.

Inductive TickerValidation :=
| Invalid
| Valid (i : TickerInfo).

(** [ticker_check['valid']] *)
Definition valid (v : TickerValidation) : bool :=
  match v with
  | Invalid => false
  | Valid _ => true
  end.

(** The two trend strings, which start with UP and with DOWN. *)
Inductive Trend := UP | DOWN.

(** The dictionary returned by [calculate_price_change]. *)
Record PriceChange := {
  first_price : float;
  last_price : float;
  price_change : float;
  percent_change : float;
  trend : Trend
}.

(** [self.common_names], in insertion order. *)
Definition common_names : list (string * string) :=
  [ ("Apple", "AAPL");
    ("Microsoft", "MSFT");
    ("Google", "GOOGL");
    ("Amazon", "AMZN");
    ("Tesla", "TSLA");
    ("Meta", "META");
    ("Facebook", "META") ].

(** [bool(info)] for the provider's info value: [None] and the empty
    dictionary are falsy. *)
Definition info_truthy (info : option (gmap string pyval)) : bool :=
  match info with
  | None => false
  | Some d => negb (bool_decide (d = ∅))
  end.

(** [key in info] *)
Definition has_key (key : string) (d : gmap string pyval) : bool :=
  match d !! key with
  | Some _ => true
  | None => false
  end.

(** The loop over [self.common_names.items()]. *)
Fixpoint lookup_common (query : string) (table : list (string * string)) : option string :=
  match table with
  | [] => None
  | (name, ticker) :: rest =>
      if String.eqb (Str.lower query) (Str.lower name) then Some ticker
      else lookup_common query rest
  end.

(** The list [variations] of method 3. *)
Definition variations (query : string) : list string :=
  [ Str.upper query;
    Str.replace " " "-" (Str.upper query);
    Str.replace " " "." (Str.upper query);
    Str.replace " " "" (Str.upper query) ].

Section Fetcher.

(** [yf.Ticker(symbol).info] *)
Variable yf_info : string -> Exc (option (gmap string pyval)).
(** [yf.Ticker(symbol).history(start=now - days, end=now)] and
    [yf.Ticker(symbol).history(period='1d')] *)
Variable yf_history : string -> nat -> Exc (list Bar).
Variable yf_history_1d : string -> Exc (list Bar).
(** [round(x, 2)] *)
Variable round2 : float -> float.

(** [validate_ticker] *)
Definition validate_ticker (ticker_symbol : string) : Exc TickerValidation :=
  try_except
    (info ← yf_info (Str.upper ticker_symbol);
     match info with
     | Some d =>
         if info_truthy info && has_key "longName" d then
           mret (Valid {| ticker := Str.upper ticker_symbol;
                          name := Sentiment.dict_get d "longName" (PStr "Unknown Company");
                          sector := Sentiment.dict_get d "sector" (PStr "Unknown");
                          industry := Sentiment.dict_get d "industry" (PStr "Unknown");
                          market_cap := Sentiment.dict_get d "marketCap" (PInt 0);
                          exchange := Sentiment.dict_get d "exchange" (PStr "Unknown") |})
         else mret Invalid
     | None => mret Invalid
     end)
    (fun _ => mret Invalid).

(** The loop of method 3: the first variant of at most ten characters
    that validates. *)
Fixpoint try_variations (vs : list string) : Exc (option string) :=
  match vs with
  | [] => mret None
  | variant :: rest =>
      if Nat.leb (String.length variant) 10 then
        ticker_check ← validate_ticker variant;
        match ticker_check with
        | Valid i => mret (Some (ticker i))
        | Invalid => try_variations rest
        end
      else try_variations rest
  end.

(** Method 1 of [search_ticker]. *)
Definition try_direct (query : string) : Exc (option string) :=
  if Nat.leb (String.length query) 5
     && Str.isalpha (Str.replace "-" "" (Str.replace "." "" query)) then
    ticker_check ← validate_ticker query;
    match ticker_check with
    | Valid i => mret (Some (ticker i))
    | Invalid => mret None
    end
  else mret None.

(** [search_ticker] *)
Definition search_ticker (query : string) : Exc string :=
  let query := Str.strip query in
  direct ← try_direct query;
  match direct with
  | Some t => mret t
  | None =>
      match lookup_common query common_names with
      | Some t => mret t
      | None =>
          found ← try_variations (variations query);
          match found with
          | Some t => mret t
          | None => mret (Str.upper query)
          end
      end
  end.

(** [get_stock_ticker] *)
Definition get_stock_ticker (company_name : string) : Exc string :=
  search_ticker company_name.

(** [get_stock_data]: [None] stands for the absent history. *)
Definition get_stock_data (company_name : string) (days : nat) : Exc (option (list Bar)) :=
  ticker ← get_stock_ticker company_name;
  try_except
    (hist ← yf_history ticker days;
     match hist with
     | [] => mret None
     | _ :: _ =>
         _ ← try_except (info ← yf_info ticker; mret tt) (fun _ => mret tt);
         mret (Some hist)
     end)
    (fun e => mret None).

(** [calculate_price_change] *)
Definition calculate_price_change (stock_data : option (list Bar)) : option PriceChange :=
  match stock_data with
  | None => None
  | Some [] => None
  | Some (first :: rest) =>
      let first_price := Close first in
      let last_price := Close (List.last rest first) in
      let price_change := last_price - first_price in
      let percent_change := (price_change / first_price) * 100 in
      Some {| first_price := round2 first_price;
              last_price := round2 last_price;
              price_change := round2 price_change;
              percent_change := round2 percent_change;
              trend := if F.gt price_change 0 then UP else DOWN |}
  end.

(** [get_current_price] *)
Definition get_current_price (company_name : string) : Exc (option float) :=
  ticker ← get_stock_ticker company_name;
  try_except
    (data ← yf_history_1d ticker;
     match data with
     | [] => mret None
     | b :: rest => mret (Some (round2 (Close (List.last rest b))))
     end)
    (fun _ => mret None).

End Fetcher.

End Stock.

(** ** main.py *)

Module Main.

Import Sentiment.
Local Open Scope float_scope.

Record SearchHistoryEntry := {
  company : string;
  timestamp : string
}.

(** A printed line.  Lines that interpolate a float keep the number
    itself in place of its decimal rendering. *)
Inductive Line :=
| Text (s : string)
| AverageScore (avg : float)
| CurrentPrice (p : float)
| SevenDayChange (change percent : float)
| TrendLine (t : Stock.Trend).

(** What one request does, in order: the mutation of the history list,
    the lines it prints and its calls to the other components. *)
Inductive Event :=
| HistoryAppend (e : SearchHistoryEntry)
| Stdout (l : Line)
| NewsFetch (company_name : string)
| Scored (article : Article)
| StockFetch (company_name : string) (days : nat)
| PriceFetch (company_name : string).

(** The analyzer object ([self.search_history]) together with the
    record of what has happened so far. *)
Record State := {
  search_history : list SearchHistoryEntry;
  effects : list Event
}.

(** Computations that read and update the state and may raise; the state
    reached when an exception is raised is kept. *)
Definition M (A : Type) : Type := State -> Exc A * State.

#[global] Instance M_ret : MRet M := fun A a st => (Ok a, st).

#[global] Instance M_bind : MBind M := fun A B k m st =>
  match m st with
  | (Ok a, st') => k a st'
  | (Raise e, st') => (Raise e, st')
  end.

Definition emit (e : Event) : M unit := fun st =>
  (Ok tt, {| search_history := search_history st; effects := effects st ++ [e] |}).

Definition print (s : string) : M unit := emit (Stdout (Text s)).

Definition print_line (l : Line) : M unit := emit (Stdout l).

(** [self.search_history.append(entry)] *)
Definition append_history (e : SearchHistoryEntry) : M unit := fun st =>
  (Ok tt, {| search_history := search_history st ++ [e];
             effects := effects st ++ [HistoryAppend e] |}).

(** A call to another component: it is recorded, then its result or its
    exception is passed on. *)
Definition call {A} (e : Event) (c : Exc A) : M A := fun st =>
  (c, {| search_history := search_history st; effects := effects st ++ [e] |}).

Definition raise {A} (e : exn) : M A := fun st => (Raise e, st).

(** A computation of the orchestrator itself, which leaves no record. *)
Definition call_free {A} (c : Exc A) : M A := fun st => (c, st).

(** A computation that leaves the history list alone and only adds to
    the record of effects. *)
Definition only_logs {A} (m : M A) : Prop :=
  forall st,
    search_history (m st).2 = search_history st /\
    exists added, effects (m st).2 = (effects st ++ added)%list.

(** The local variables of the scoring loop. *)
Record Tally := {
  sentiments : list ArticleSentiment;
  positive_count : nat;
  negative_count : nat;
  neutral_count : nat
}.

Definition empty_tally : Tally :=
  {| sentiments := []; positive_count := 0; negative_count := 0; neutral_count := 0 |}.

(** The two lines of each branch of the conclusion. *)
Definition bullish : list string :=
  [ "Positive news & Rising stock = Bullish";
    "   The positive sentiment aligns with upward price movement." ].
Definition positive_not_rising : list string :=
  [ "Positive news but stock not rising yet";
    "   Could be a buying opportunity if news impact is delayed." ].
Definition bearish : list string :=
  [ "Negative news + Falling stock = Bearish";
    "   The negative sentiment aligns with downward price movement." ].
Definition negative_holding : list string :=
  [ "Negative news but stock holding steady";
    "   Market might have already priced in the bad news." ].
Definition neutral_no_signal : list string :=
  [ "Neutral sentiment - No strong signals";
    "   Consider other factors before making investment decisions." ].

(** The conclusion block of [display_results]. *)
Definition conclusion (avg_sentiment : float) (price_changes : option Stock.PriceChange)
  : list string :=
  if F.gt avg_sentiment 0.1 then
    match price_changes with
    | Some p => if F.gt (Stock.percent_change p) 0 then bullish else positive_not_rising
    | None => positive_not_rising
    end
  else if F.lt avg_sentiment (-0.1) then
    match price_changes with
    | Some p => if F.lt (Stock.percent_change p) 0 then bearish else negative_holding
    | None => negative_holding
    end
  else neutral_no_signal.

(** [for x in xs: body] in the monad. *)
Fixpoint for_each {A} (xs : list A) (body : A -> M unit) : M unit :=
  match xs with
  | [] => mret tt
  | x :: rest => body x;; for_each rest body
  end.

(** One headline of the report: the title must be a string to be
    sliced, and the sentiment must be present to be indexed. *)
Definition print_headline (i : nat) (item : ArticleSentiment) : M unit :=
  match as_title item with
  | PStr t =>
      print (Str.nl ++ "  " ++ Str.of_nat i ++ ". " ++ substring 0 80 t ++ "...");;
      print ("     Source: " ++ py_str (as_source item));;
      match sentiment item with
      | Some s => print ("     Sentiment: " ++ overall_sentiment s)
      | None => raise TypeError
      end
  | _ => raise TypeError
  end.

Fixpoint print_headlines (i : nat) (items : list ArticleSentiment) : M unit :=
  match items with
  | [] => mret tt
  | item :: rest => print_headline i item;; print_headlines (S i) rest
  end.

(** [display_results] *)
Definition display_results (company_name : string) (sentiments : list ArticleSentiment)
    (pos_count neg_count neu_count : nat) (avg_sentiment : float)
    (current_price : option float) (price_changes : option Stock.PriceChange) : M unit :=
  print (Str.nl ++ Str.times "=" 60);;
  print "Results";;
  print (Str.times "=" 60);;
  print (Str.nl ++ "Sentiment Summary:");;
  print ("  Positive Articles: " ++ Str.of_nat pos_count);;
  print ("  Negative Articles: " ++ Str.of_nat neg_count);;
  print ("  Neutral Articles: " ++ Str.of_nat neu_count);;
  print_line (AverageScore avg_sentiment);;
  (if F.gt avg_sentiment 0.1 then print "  Overall: Positive Sentiment"
   else if F.lt avg_sentiment (-0.1) then print "  Overall: Negative Sentiment"
   else print "  Overall: Neutral Sentiment");;
  print (Str.nl ++ "Stock Information:");;
  match current_price with
  | Some p => if F.truthy p then print_line (CurrentPrice p) else mret tt
  | None => mret tt
  end;;
  match price_changes with
  | Some p =>
      print_line (SevenDayChange (Stock.price_change p) (Stock.percent_change p));;
      print_line (TrendLine (Stock.trend p))
  | None => mret tt
  end;;
  print (Str.nl ++ "Top Headlines:");;
  print_headlines 1 sentiments;;
  print (Str.nl ++ Str.times "=" 60);;
  print "Conclusion:";;
  print (Str.times "=" 60);;
  for_each (conclusion avg_sentiment price_changes) print;;
  print (Str.nl ++ "DISCLAIMER: This is for educational purposes only!");;
  print "   Always do your own research before investing.";;
  print (Str.times "=" 60).

(** The events of a request up to and including the news fetch. *)
Definition opening (now company_name : string) : list Event :=
  [ HistoryAppend {| company := company_name; timestamp := now |};
    Stdout (Text (Str.times "=" 60));
    Stdout (Text ("ANALYZING: " ++ company_name));
    Stdout (Text (Str.times "=" 60));
    Stdout (Text (Str.nl ++ "STEP 1: Pulling News Articles"));
    NewsFetch company_name ].

Section Orchestrator.

Variable textblob_polarity : string -> float.
Variable polarity_scores : string -> VaderScores.
Variable api_key week_ago today : string.
Variable requests_get : string -> News.Parameters -> Exc News.Response.
Variable yf_info : string -> Exc (option (gmap string pyval)).
Variable yf_history : string -> nat -> Exc (list Stock.Bar).
Variable yf_history_1d : string -> Exc (list Stock.Bar).
Variable round2 : float -> float.
(** The built-in [sum] on a sequence of floats. *)
Variable fsum : list float -> float.
(** [datetime.now().strftime("%Y-%m-%d %H:%M:%S")] *)
Variable now : string.

(** The body of the scoring loop. *)
Definition score_article (article : Article) (t : Tally) : M Tally :=
  result ← call (Scored article) (Ok (analyze_article textblob_polarity polarity_scores article));
  let sentiments := (sentiments t ++ [result])%list in
  match sentiment result with
  | None => raise TypeError
  | Some s =>
      let sentiment_label := overall_sentiment s in
      if Str.contains "POSITIVE" sentiment_label then
        mret {| sentiments := sentiments;
                positive_count := positive_count t + 1;
                negative_count := negative_count t;
                neutral_count := neutral_count t |}
      else if Str.contains "NEGATIVE" sentiment_label then
        mret {| sentiments := sentiments;
                positive_count := positive_count t;
                negative_count := negative_count t + 1;
                neutral_count := neutral_count t |}
      else
        mret {| sentiments := sentiments;
                positive_count := positive_count t;
                negative_count := negative_count t;
                neutral_count := neutral_count t + 1 |}
  end.

(** [for article in articles[:10]: ...] *)
Fixpoint score_loop (articles : list Article) (t : Tally) : M Tally :=
  match articles with
  | [] => mret t
  | article :: rest => t' ← score_article article t; score_loop rest t'
  end.

(** The generator [s['sentiment']['vader_compound'] for s in sentiments]. *)
Fixpoint compounds (sentiments : list ArticleSentiment) : Exc (list float) :=
  match sentiments with
  | [] => Ok []
  | s :: rest =>
      match sentiment s with
      | None => Raise TypeError
      | Some r => cs ← compounds rest; mret (vader_compound r :: cs)
      end
  end.

(** [sum(...) / len(sentiments)] *)
Definition average (sentiments : list ArticleSentiment) : Exc float :=
  cs ← compounds sentiments;
  match sentiments with
  | [] => Raise ZeroDivisionError
  | _ :: _ => mret (fsum cs / F.of_nat (List.length sentiments))
  end.

(** [not articles] *)
Definition is_nil {A} (l : list A) : bool :=
  match l with
  | [] => true
  | _ :: _ => false
  end.

(** [analyze_company] *)
Definition analyze_company (company_name : string) : M unit :=
  append_history {| company := company_name; timestamp := now |};;
  print (Str.times "=" 60);;
  print ("ANALYZING: " ++ company_name);;
  print (Str.times "=" 60);;
  print (Str.nl ++ "STEP 1: Pulling News Articles");;
  articles ← call (NewsFetch company_name)
    (News.get_news_for_company api_key week_ago today requests_get company_name);
  if is_nil articles then
    print "No articles found. Try again."
  else
    print (Str.nl ++ "STEP 2: Analyzing sentiment of "
           ++ Str.of_nat (List.length articles) ++ " articles");;
    t ← score_loop (firstn 10 articles) empty_tally;
    avg_sentiment ← call_free (average (sentiments t));
    print (Str.nl ++ "STEP 3: Pulling stock data");;
    stock_history ← call (StockFetch company_name 7)
      (Stock.get_stock_data yf_info yf_history company_name 7);
    current_price ← call (PriceFetch company_name)
      (Stock.get_current_price yf_info yf_history_1d round2 company_name);
    let price_changes :=
      match stock_history with
      | Some h => Stock.calculate_price_change round2 (Some h)
      | None => None
      end in
    display_results company_name (firstn 5 (sentiments t))
      (positive_count t) (negative_count t) (neutral_count t)
      avg_sentiment current_price price_changes.

End Orchestrator.

End Main.

(** ** The specification's wording, for comparison *)

Module AsStated.

(** "The response contains a non-empty canonical long name field." *)
Definition long_name_nonempty (info : Exc (option (gmap string pyval))) : bool :=
  match info with
  | Ok (Some d) =>
      match d !! "longName" with
      | Some (PStr s) => negb (Sentiment.is_empty s)
      | Some (PInt _) => true
      | Some PNone => false
      | None => false
      end
  | Ok None => false
  | Raise _ => false
  end.

Section Resolution.

Variable yf_info : string -> Exc (option (gmap string pyval)).

(** "Validate it against the financial-data service." *)
Definition validates (symbol : string) : bool :=
  match Stock.validate_ticker yf_info symbol with
  | Ok v => Stock.valid v
  | Raise _ => false
  end.

(** Step 1: "at most 5 characters and alphabetic after removing '.' and '-'". *)
Definition looks_like_ticker (query : string) : bool :=
  Nat.leb (String.length query) 5
  && Str.isalpha (Str.replace "-" "" (Str.replace "." "" query)).

(** Step 2: "a case-insensitive exact match against the fixed common-name table". *)
Definition common_name_match (query : string) : option string :=
  snd <$> List.find (fun entry => String.eqb (Str.lower (fst entry)) (Str.lower query))
            Stock.common_names.

(** Step 3: "uppercase, spaces replaced by '-', spaces replaced by '.',
    spaces removed", each "of length at most 10". *)
Definition four_variants (query : string) : list string :=
  let u := Str.upper query in
  [ u; Str.replace " " "-" u; Str.replace " " "." u; Str.replace " " "" u ].

Definition first_valid_variant (query : string) : option string :=
  List.find (fun v => Nat.leb (String.length v) 10 && validates v) (four_variants query).

(** The four steps, "in order, first match winning". *)
Definition resolve (query : string) : string :=
  if looks_like_ticker query && validates query then Str.upper query
  else
    match common_name_match query with
    | Some t => t
    | None =>
        match first_valid_variant query with
        | Some v => v
        | None => Str.upper query
        end
    end.

End Resolution.

Section Buckets.

Variable polarity_scores : string -> Sentiment.VaderScores.

(** The label and the compound score of an article. *)
Definition compound_of (a : Sentiment.Article) : float :=
  Sentiment.compound (polarity_scores (Sentiment.article_text a)).

Definition label_of (a : Sentiment.Article) : string :=
  Sentiment._get_sentiment_label (compound_of a).

(** "Counts labels into positive/negative/neutral buckets." *)
Definition count_label (label : string) (articles : list Sentiment.Article) : nat :=
  List.length (List.filter (fun a => String.eqb (label_of a) label) articles).

End Buckets.

End AsStated.

(** ** Sample services and inputs *)

Module Examples.

Local Open Scope float_scope.

Definition textblob_polarity (text : string) : float := 0.

(** A scorer that likes the word "record" and dislikes "lawsuit". *)
Definition polarity_scores (text : string) : Sentiment.VaderScores :=
  if Str.contains "record" text then
    {| Sentiment.pos := 0.4; Sentiment.neg := 0; Sentiment.neu := 0.6;
       Sentiment.compound := 0.6 |}
  else if Str.contains "lawsuit" text then
    {| Sentiment.pos := 0; Sentiment.neg := 0.3; Sentiment.neu := 0.7;
       Sentiment.compound := -0.4 |}
  else
    {| Sentiment.pos := 0; Sentiment.neg := 0; Sentiment.neu := 1;
       Sentiment.compound := 0 |}.

(** A provider that cannot be reached. *)
Definition offline (symbol : string) : Exc (option (gmap string pyval)) :=
  Raise (ServiceError "connection refused").

(** A provider that knows one company. *)
Definition only_apple (symbol : string) : Exc (option (gmap string pyval)) :=
  if String.eqb symbol "AAPL" then
    Ok (Some (<["longName" := PStr "Apple Inc."]> (<["sector" := PStr "Technology"]> ∅)))
  else Ok (Some (<["trailingPegRatio" := PNone]> ∅)).

(** A provider whose record for every symbol has a blank long name. *)
Definition blank_name (symbol : string) : Exc (option (gmap string pyval)) :=
  Ok (Some (<["longName" := PStr ""]> ∅)).

Definition bar (c : float) : Stock.Bar :=
  {| Stock.Open := c; Stock.High := c; Stock.Low := c; Stock.Close := c;
     Stock.Volume := 1000 |}.

Definition week : list Stock.Bar := [bar 100; bar 98.5; bar 103].

(** A news service that answers every request with status 404, one whose
    body is not JSON, and one with three articles. *)
Definition not_found (url : string) (p : News.Parameters) : Exc News.Response :=
  Ok {| News.status_code := 404; News.json := Ok News.NotAnObject |}.

Definition garbled (url : string) (p : News.Parameters) : Exc News.Response :=
  Ok {| News.status_code := 200; News.json := Raise (ServiceError "Expecting value") |}.

Definition article (t d : string) : Sentiment.Article :=
  {| Sentiment.title := Some (PStr t); Sentiment.description := Some (PStr d);
     Sentiment.source := Some (<["name" := PStr "Newswire"]> ∅) |}.

Definition three_articles : list Sentiment.Article :=
  [ article "Apple reports record profits" "Sales grew";
    article "Company faces lawsuit" "Shares fell";
    article "Stock price remains stable" "" ].

Definition three_found (url : string) (p : News.Parameters) : Exc News.Response :=
  Ok {| News.status_code := 200;
        News.json := Ok (News.Object (News.Items three_articles)) |}.

Definition fresh : Main.State := {| Main.search_history := []; Main.effects := [] |}.

(** Left-to-right summation from 0. *)
Definition running_sum (l : list float) : float := fold_left PrimFloat.add l 0.

Definition rising : Stock.PriceChange :=
  {| Stock.first_price := 100; Stock.last_price := 103; Stock.price_change := 3;
     Stock.percent_change := 3; Stock.trend := Stock.UP |}.

Definition falling : Stock.PriceChange :=
  {| Stock.first_price := 100; Stock.last_price := 99; Stock.price_change := -1;
     Stock.percent_change := -1; Stock.trend := Stock.DOWN |}.

(** A rounding that leaves its argument alone. *)
Definition no_rounding (x : float) : float := x.

Definition history (symbol : string) (days : nat) : Exc (list Stock.Bar) := Ok week.

Definition history_1d (symbol : string) : Exc (list Stock.Bar) := Ok [bar 103].

(** A request against the sample services, for a given news service. *)
Definition request (requests_get : string -> News.Parameters -> Exc News.Response)
  : string -> Main.M unit :=
  Main.analyze_company textblob_polarity polarity_scores
    "key" "2024-01-01" "2024-01-08" requests_get
    only_apple history history_1d no_rounding running_sum "2024-01-08 09:30:00".

End Examples.

(** ** stock_data.py: the company profile *)

Module StockInfo.

(** The dictionary returned by [get_stock_info]. *)
Record Profile := {
  ticker : string;
  name : pyval;
  sector : pyval;
  industry : pyval;
  market_cap : pyval;
  employees : pyval;
  country : pyval;
  website : pyval;
  description : string
}.

(** [value[:200] + '...']: only a string can be sliced. *)
Definition summary (value : pyval) : Exc string :=
  match value with
  | PStr s => Ok (substring 0 200 s ++ "...")
  | PNone => Raise TypeError
  | PInt _ => Raise TypeError
  end.

Section Fetcher.

Variable yf_info : string -> Exc (option (gmap string pyval)).

(** [get_stock_info]; [info.get] on [None] is an attribute error. *)
Definition get_stock_info (company_name : string) : Exc (option Profile) :=
  ticker ← Stock.get_stock_ticker yf_info company_name;
  try_except
    (info ← yf_info ticker;
     match info with
     | None => Raise AttributeError
     | Some d =>
         description ←
           summary (Sentiment.dict_get d "longBusinessSummary"
                      (PStr "No description available"));
         mret (Some {| ticker := ticker;
                       name := Sentiment.dict_get d "longName" (PStr "Unknown");
                       sector := Sentiment.dict_get d "sector" (PStr "Unknown");
                       industry := Sentiment.dict_get d "industry" (PStr "Unknown");
                       market_cap := Sentiment.dict_get d "marketCap" (PInt 0);
                       employees := Sentiment.dict_get d "fullTimeEmployees" (PStr "Unknown");
                       country := Sentiment.dict_get d "country" (PStr "Unknown");
                       website := Sentiment.dict_get d "website" (PStr "Unknown");
                       description := description |})
     end)
    (fun _ => mret None).

End Fetcher.

End StockInfo.

(** ** main.py: the menu loop *)

Module Menu.

Import Main.

(** [s.split(',')]: the pieces between the separators, at least one. *)
Fixpoint split (sep : ascii) (s : string) : list string :=
  match s with
  | EmptyString => [EmptyString]
  | String c s' =>
      if Ascii.eqb c sep then EmptyString :: split sep s'
      else
        match split sep s' with
        | piece :: pieces => String c piece :: pieces
        | [] => [String c EmptyString]
        end
  end.

(** [EOFError], raised by [input] at the end of standard input. *)
Definition EOFError : exn := ServiceError "EOFError".

(** The dictionary of the quick picks. *)
Definition quick_picks : list (string * string) :=
  [ ("1", "Apple"); ("2", "Microsoft"); ("3", "Tesla"); ("4", "Amazon") ].

Fixpoint pick (key : string) (table : list (string * string)) : option string :=
  match table with
  | [] => None
  | (k, v) :: rest => if String.eqb key k then Some v else pick key rest
  end.

(** [self.search_history], read. *)
Definition history : M (list SearchHistoryEntry) := fun st => (Ok (search_history st), st).

(** The menu printed at the start of each round, with the prompt of the
    choice. *)
Definition show_menu : M unit :=
  print (Str.nl ++ Str.times "=" 60);;
  print "News Sentiment Stock Analyzer";;
  print (Str.times "=" 60);;
  print (Str.nl ++ "Options:");;
  print "  1. Analyze any company (type the name)";;
  print "  2. Quick analyze popular companies";;
  print "  3. Analyze multiple companies";;
  print "  4. View analysis history";;
  print "  0. Exit";;
  print (Str.nl ++ "Enter your choice (0-4): ").

Definition explain_tickers : M unit :=
  print (Str.nl ++ "Enter a stock ticker symbol or company name");;
  print "Examples of tickers:";;
  print "  US Stocks: AAPL, MSFT, TSLA, NVDA, AMD";;
  print "  ETFs: SPY, QQQ, VOO, VTI";;
  print "  Crypto stocks: COIN, MSTR, RIOT";;
  print "  International: TSM, BABA, NIO, SONY";;
  print "  Penny stocks: Any valid ticker";;
  print (Str.nl ++ "Tip: Using the ticker symbol (e.g., 'AAPL') is more reliable than company name");;
  print (Str.nl ++ "Enter ticker or company name: ").

Definition show_quick_picks : M unit :=
  print (Str.nl ++ "Popular Companies:");;
  print "  1. Apple (AAPL)";;
  print "  2. Microsoft (MSFT)";;
  print "  3. Tesla (TSLA)";;
  print "  4. Amazon (AMZN)";;
  print (Str.nl ++ "Select company (1-8): ").

Definition explain_batch : M unit :=
  print (Str.nl ++ "Enter company names or tickers separated by commas");;
  print "Example: AAPL, MSFT, TSLA  or  Apple, Microsoft, Tesla";;
  print "Companies/Tickers: ".

(** The lines of the history view, numbered from [i]. *)
Fixpoint print_searches (i : nat) (searches : list SearchHistoryEntry) : M unit :=
  match searches with
  | [] => mret tt
  | search :: rest =>
      print (Str.of_nat i ++ ". " ++ company search ++ " - " ++ timestamp search);;
      print_searches (S i) rest
  end.

Definition view_history : M unit :=
  print (Str.nl ++ "ANALYSIS HISTORY (This Session)");;
  print (Str.times "=" 60);;
  searches ← history;
  match searches with
  | [] => print "No searches yet this session."
  | _ :: _ => print_searches 1 searches
  end;;
  print (Str.nl ++ "Tip: Check the 'outputs' folder for saved reports").

Section Session.

Variable textblob_polarity : string -> float.
Variable polarity_scores : string -> Sentiment.VaderScores.
Variable api_key week_ago today : string.
Variable requests_get : string -> News.Parameters -> Exc News.Response.
Variable yf_info : string -> Exc (option (gmap string pyval)).
Variable yf_history : string -> nat -> Exc (list Stock.Bar).
Variable yf_history_1d : string -> Exc (list Stock.Bar).
Variable round2 : float -> float.
Variable fsum : list float -> float.
(** The formatted time of day as a function of the number of effects so
    far. *)
Variable clock : nat -> string.

(** [analyzer.analyze_company(company)], at the time of the call. *)
Definition request (company_name : string) : M unit := fun st =>
  analyze_company textblob_polarity polarity_scores api_key week_ago today
    requests_get yf_info yf_history yf_history_1d round2 fsum
    (clock (List.length (effects st))) company_name st.

(** The loop of the batch choice; the two-second sleep leaves no trace. *)
Fixpoint analyze_batch (companies : list string) : M unit :=
  match companies with
  | [] => mret tt
  | company_name :: rest =>
      print (Str.nl ++ Str.times "=" 60);;
      request company_name;;
      print (Str.nl ++ "Pausing before next company");;
      analyze_batch rest
  end.

(** What each choice does once its line of input, if it takes one, has
    been read. *)
Definition analyze_one (line : string) : M unit :=
  let company_name := Str.strip line in
  if Sentiment.is_empty company_name then print "No input entered."
  else print (Str.nl ++ "Searching for " ++ company_name ++ "...");; request company_name.

Definition analyze_quick (line : string) : M unit :=
  let quick_choice := Str.strip line in
  match pick quick_choice quick_picks with
  | Some company_name => request company_name
  | None => print "Invalid selection."
  end.

Definition analyze_many (line : string) : M unit :=
  let companies_input := Str.strip line in
  if Sentiment.is_empty companies_input then mret tt
  else
    let companies := map Str.strip (split "," companies_input) in
    print (Str.nl ++ "Analyzing " ++ Str.of_nat (List.length companies) ++ " companies");;
    analyze_batch companies.

Definition press_enter : M unit := print (Str.nl ++ "Press Enter to continue...").

(** The [while True] loop of [main_menu] on the lines of standard input;
    each [input] writes its prompt, recorded like a printed line, takes
    the next line and raises [EOFError] when there is none. *)
Fixpoint main_loop (stdin : list string) : M unit :=
  show_menu;;
  match stdin with
  | [] => raise EOFError
  | line :: stdin1 =>
      let choice := Str.strip line in
      if String.eqb choice "0" then print (Str.nl ++ "Thanks!")
      else if String.eqb choice "1" then
        explain_tickers;;
        match stdin1 with
        | [] => raise EOFError
        | line1 :: stdin2 =>
            analyze_one line1;;
            press_enter;;
            match stdin2 with
            | [] => raise EOFError
            | _ :: stdin3 => main_loop stdin3
            end
        end
      else if String.eqb choice "2" then
        show_quick_picks;;
        match stdin1 with
        | [] => raise EOFError
        | line1 :: stdin2 =>
            analyze_quick line1;;
            press_enter;;
            match stdin2 with
            | [] => raise EOFError
            | _ :: stdin3 => main_loop stdin3
            end
        end
      else if String.eqb choice "3" then
        explain_batch;;
        match stdin1 with
        | [] => raise EOFError
        | line1 :: stdin2 =>
            analyze_many line1;;
            press_enter;;
            match stdin2 with
            | [] => raise EOFError
            | _ :: stdin3 => main_loop stdin3
            end
        end
      else
        (if String.eqb choice "4" then view_history
         else print "Invalid choice. Please try again.");;
        press_enter;;
        match stdin1 with
        | [] => raise EOFError
        | _ :: stdin2 => main_loop stdin2
        end
  end.

(** [main_menu]: the analyzer is created with an empty history, then the
    loop runs. *)
Definition main_menu (stdin : list string) : Exc unit * State :=
  (print "Initializing";;
   print ("Begin" ++ Str.nl);;
   main_loop stdin)
  {| search_history := []; effects := [] |}.

End Session.

End Menu.

(** ** Conditions used in the statements on the report *)

Module Report.

(** A value that can be sliced as a title: a string. *)
Definition sliceable (v : pyval) : bool :=
  match v with
  | PStr _ => true
  | PNone => false
  | PInt _ => false
  end.

(** A headline that [display_results] can print: its title is a string
    and its sentiment is present. *)
Definition printable (item : Sentiment.ArticleSentiment) : bool :=
  sliceable (Sentiment.as_title item)
  && match Sentiment.sentiment item with
     | Some _ => true
     | None => false
     end.

(** An article whose title is missing or is a string. *)
Definition titled (a : Sentiment.Article) : bool :=
  match Sentiment.title a with
  | None => true
  | Some v => sliceable v
  end.

(** A computation that returns in every state. *)
Definition succeeds {A} (m : Main.M A) : Prop :=
  forall st, exists a, (m st).1 = Ok a.

(** A computation that keeps the entries of the history list and may add
    entries after them. *)
Definition appends_only {A} (m : Main.M A) : Prop :=
  forall st, exists added,
    Main.search_history (m st).2 = (Main.search_history st ++ added)%list.

End Report.

(** ** The lines of the report *)

Module ReportLines.

Import Main.

(** The state after the given lines have been printed. *)
Definition log (st : State) (lines : list Line) : State :=
  {| search_history := search_history st;
     effects := effects st ++ map Stdout lines |}.

(** A computation that prints the given lines and returns. *)
Definition says (m : M unit) (lines : list Line) : Prop :=
  forall st, m st = (Ok tt, log st lines).

(** The line with the overall label. *)
Definition overall (avg_sentiment : float) : string :=
  if F.gt avg_sentiment 0.1 then "  Overall: Positive Sentiment"
  else if F.lt avg_sentiment (-0.1) then "  Overall: Negative Sentiment"
  else "  Overall: Neutral Sentiment".

Definition price_lines (current_price : option float) : list Line :=
  match current_price with
  | Some p => if F.truthy p then [CurrentPrice p] else []
  | None => []
  end.

Definition change_lines (price_changes : option Stock.PriceChange) : list Line :=
  match price_changes with
  | Some p =>
      [SevenDayChange (Stock.price_change p) (Stock.percent_change p);
       TrendLine (Stock.trend p)]
  | None => []
  end.

(** The report down to the title of the headlines. *)
Definition before_headlines (pos_count neg_count neu_count : nat)
    (avg_sentiment : float) (current_price : option float)
    (price_changes : option Stock.PriceChange) : list Line :=
  [ Text (Str.nl ++ Str.times "=" 60);
    Text "Results";
    Text (Str.times "=" 60);
    Text (Str.nl ++ "Sentiment Summary:");
    Text ("  Positive Articles: " ++ Str.of_nat pos_count);
    Text ("  Negative Articles: " ++ Str.of_nat neg_count);
    Text ("  Neutral Articles: " ++ Str.of_nat neu_count);
    AverageScore avg_sentiment;
    Text (overall avg_sentiment);
    Text (Str.nl ++ "Stock Information:") ]
  ++ price_lines current_price
  ++ change_lines price_changes
  ++ [ Text (Str.nl ++ "Top Headlines:") ].

(** The lines that one headline gets on the screen: three when it can be
    printed, the first two when only its sentiment is missing, none when
    its title is not a string. *)
Definition headline_lines (i : nat) (item : Sentiment.ArticleSentiment) : list Line :=
  match Sentiment.as_title item with
  | PStr t =>
      [ Text (Str.nl ++ "  " ++ Str.of_nat i ++ ". " ++ substring 0 80 t ++ "...");
        Text ("     Source: " ++ py_str (Sentiment.as_source item)) ]
      ++ match Sentiment.sentiment item with
         | Some r => [ Text ("     Sentiment: " ++ Sentiment.overall_sentiment r) ]
         | None => []
         end
  | PNone => []
  | PInt _ => []
  end.

Fixpoint headlines (i : nat) (items : list Sentiment.ArticleSentiment) : list Line :=
  match items with
  | [] => []
  | item :: rest => headline_lines i item ++ headlines (S i) rest
  end.

Definition conclusion_header : list Line :=
  [ Text (Str.nl ++ Str.times "=" 60); Text "Conclusion:"; Text (Str.times "=" 60) ].

Definition closing : list Line :=
  [ Text (Str.nl ++ "DISCLAIMER: This is for educational purposes only!");
    Text "   Always do your own research before investing.";
    Text (Str.times "=" 60) ].

(** The whole report, with the given two lines as its conclusion. *)
Definition report (items : list Sentiment.ArticleSentiment)
    (pos_count neg_count neu_count : nat) (avg_sentiment : float)
    (current_price : option float) (price_changes : option Stock.PriceChange)
    (narrative : list string) : list Line :=
  before_headlines pos_count neg_count neu_count avg_sentiment current_price price_changes
  ++ headlines 1 items
  ++ conclusion_header
  ++ map Text narrative
  ++ closing.

(** A headline whose title is JSON null, as [analyze_article] returns it
    for an article with a null title. *)
Definition null_title : Sentiment.ArticleSentiment :=
  Sentiment.analyze_article Examples.textblob_polarity Examples.polarity_scores
    {| Sentiment.title := Some PNone;
       Sentiment.description := Some (PStr "Apple reports record profits");
       Sentiment.source := Some (<["name" := PStr "Newswire"]> ∅) |}.


End ReportLines.

(** ** A sample session *)

Module SessionExamples.

(** A clock that shows the number of effects so far. *)
Definition clock (n : nat) : string := "tick " ++ Str.of_nat n.

(** The batch loop and the menu loop against the sample services, with a
    news service that finds nothing. *)
Definition batch : list string -> Main.M unit :=
  Menu.analyze_batch Examples.textblob_polarity Examples.polarity_scores
    "key" "2024-01-01" "2024-01-08" Examples.not_found
    Examples.only_apple Examples.history Examples.history_1d
    Examples.no_rounding Examples.running_sum clock.

Definition loop : list string -> Main.M unit :=
  Menu.main_loop Examples.textblob_polarity Examples.polarity_scores
    "key" "2024-01-01" "2024-01-08" Examples.not_found
    Examples.only_apple Examples.history Examples.history_1d
    Examples.no_rounding Examples.running_sum clock.

End SessionExamples.

(** * Properties *)

(** ** Order facts on binary64 numbers *)

Module FloatFacts.

Local Open Scope float_scope.

Ltac eval_sf c :=
  let v := eval vm_compute in (Prim2SF c) in change (Prim2SF c) with v.

Lemma SFcompare_antisym (a b : spec_float) :
  SFcompare b a = option_map CompOpp (SFcompare a b).
Proof.
  destruct a as [sa|sa| |sa ma ea], b as [sb|sb| |sb mb eb];
    unfold SFcompare, option_map;
    try destruct sa; try destruct sb; try reflexivity;
    rewrite (Z.compare_antisym ea eb);
    destruct (ea ?= eb)%Z; cbv [CompOpp]; try reflexivity;
    fold (CompOpp (Pos.compare_cont Eq ma mb));
    rewrite Pos.compare_cont_antisym; cbv [CompOpp]; try reflexivity;
    destruct (Pos.compare_cont Eq mb ma); reflexivity.
Qed.

Lemma le_not_gt (x y : float) : F.le x y = true -> F.gt x y = false.
Proof.
  unfold F.le, F.gt. rewrite leb_spec, ltb_spec.
  unfold SFleb, SFltb. rewrite (SFcompare_antisym (Prim2SF x) (Prim2SF y)).
  destruct (SFcompare (Prim2SF x) (Prim2SF y)) as [[ | | ]|];
    cbv [option_map CompOpp]; congruence.
Qed.

Lemma ge_not_lt (x y : float) : F.ge x y = true -> F.lt x y = false.
Proof. unfold F.ge, F.lt. intros H. exact (le_not_gt y x H). Qed.

Lemma gt_not_le (x y : float) : F.gt x y = true -> F.le x y = false.
Proof.
  intros H. destruct (F.le x y) eqn:E; [|reflexivity].
  apply le_not_gt in E. congruence.
Qed.

Lemma lt_not_ge (x y : float) : F.lt x y = true -> F.ge x y = false.
Proof. unfold F.ge, F.lt. intros H. exact (gt_not_le y x H). Qed.

(** Below the negative threshold means not above the positive one. *)
Lemma le_neg_threshold_not_ge (c : float) :
  F.le c (-0.05) = true -> F.ge c 0.05 = false.
Proof.
  unfold F.le, F.ge. rewrite !leb_spec.
  eval_sf (-0.05). eval_sf 0.05.
  unfold SFleb, SFcompare.
  destruct (Prim2SF c) as [s|s| |s m e]; try destruct s; congruence.
Qed.

Lemma lt_neg_tenth_not_gt (m : float) :
  F.lt m (-0.1) = true -> F.gt m 0.1 = false.
Proof.
  unfold F.lt, F.gt. rewrite !ltb_spec.
  eval_sf (-0.1). eval_sf 0.1.
  unfold SFltb, SFcompare.
  destruct (Prim2SF m) as [s|s| |s m' e]; try destruct s; congruence.
Qed.

End FloatFacts.

(** ** The sentiment scorer *)

Section SentimentProperties.

Import Sentiment.

Variable textblob_polarity : string -> float.
Variable polarity_scores : string -> VaderScores.

(** C1. The label of a compound score [c] is POSITIVE when [c >= 0.05],
    NEGATIVE when [c <= -0.05] and NEUTRAL in every other case; the two
    thresholds themselves belong to the extreme side, so 0.05 is POSITIVE
    and -0.05 is NEGATIVE. *)
Theorem get_sentiment_label_thresholds (c : float) :
  (F.ge c 0.05 = true -> _get_sentiment_label c = "POSITIVE"%string) /\
  (F.le c (-0.05) = true -> _get_sentiment_label c = "NEGATIVE"%string) /\
  (F.ge c 0.05 = false -> F.le c (-0.05) = false ->
     _get_sentiment_label c = "NEUTRAL"%string) /\
  _get_sentiment_label 0.05 = "POSITIVE"%string /\
  _get_sentiment_label (-0.05) = "NEGATIVE"%string.
Proof.
  unfold _get_sentiment_label. repeat split.
  - intros ->. reflexivity.
  - intros H. rewrite (FloatFacts.le_neg_threshold_not_ge c H), H. reflexivity.
  - intros -> ->. reflexivity.
Qed.

Lemma get_sentiment_label_thresholds_witness :
  _get_sentiment_label 0.7 = "POSITIVE"%string /\
  _get_sentiment_label (-0.3) = "NEGATIVE"%string /\
  _get_sentiment_label 0.01 = "NEUTRAL"%string.
Proof.
  split; [|split].
  - apply (proj1 (get_sentiment_label_thresholds 0.7)). reflexivity.
  - apply (proj1 (proj2 (get_sentiment_label_thresholds (-0.3)))). reflexivity.
  - apply (proj1 (proj2 (proj2 (get_sentiment_label_thresholds 0.01)))); reflexivity.
Defined.

Lemma is_empty_true (text : string) : is_empty text = true <-> text = ""%string.
Proof. destruct text; simpl; split; congruence. Qed.

Lemma append_space_nonempty (s1 s2 : string) : (s1 ++ " " ++ s2)%string <> ""%string.
Proof. destruct s1; cbv [String.append]; discriminate. Qed.

Lemma article_text_nonempty (a : Article) : is_empty (article_text a) = false.
Proof.
  destruct (is_empty (article_text a)) eqn:E; [|reflexivity].
  apply is_empty_true in E. unfold article_text in E.
  exfalso. exact (append_space_nonempty _ _ E).
Qed.

Lemma analyze_article_sentiment (a : Article) :
  sentiment (analyze_article textblob_polarity polarity_scores a)
  = Some {| textblob_score := textblob_polarity (article_text a);
            vader_positive := pos (polarity_scores (article_text a));
            vader_negative := neg (polarity_scores (article_text a));
            vader_neutral := neu (polarity_scores (article_text a));
            vader_compound := compound (polarity_scores (article_text a));
            overall_sentiment :=
              _get_sentiment_label (compound (polarity_scores (article_text a))) |}.
Proof.
  unfold analyze_article, analyze_text; cbn [sentiment].
  rewrite article_text_nonempty. reflexivity.
Qed.

(** The label is one of the three words, and the substring tests of the
    scoring loop tell them apart. *)
Lemma get_sentiment_label_cases (c : float) :
  _get_sentiment_label c = "POSITIVE"%string \/
  _get_sentiment_label c = "NEGATIVE"%string \/
  _get_sentiment_label c = "NEUTRAL"%string.
Proof.
  unfold _get_sentiment_label.
  destruct (F.ge c 0.05); [auto|]. destruct (F.le c (-0.05)); auto.
Qed.

Lemma score_article_ok (a : Article) (t : Main.Tally) (st : Main.State) :
  exists t', Main.score_article textblob_polarity polarity_scores a t st
             = (Ok t', {| Main.search_history := Main.search_history st;
                          Main.effects := Main.effects st ++ [Main.Scored a] |})
    /\ Main.sentiments t'
       = (Main.sentiments t ++ [analyze_article textblob_polarity polarity_scores a])%list
    /\ Main.positive_count t' + Main.negative_count t' + Main.neutral_count t'
       = S (Main.positive_count t + Main.negative_count t + Main.neutral_count t)
    /\ Main.positive_count t' = Main.positive_count t +
         (if String.eqb (_get_sentiment_label (compound (polarity_scores (article_text a))))
                        "POSITIVE" then 1 else 0)
    /\ Main.negative_count t' = Main.negative_count t +
         (if String.eqb (_get_sentiment_label (compound (polarity_scores (article_text a))))
                        "NEGATIVE" then 1 else 0)
    /\ Main.neutral_count t' = Main.neutral_count t +
         (if String.eqb (_get_sentiment_label (compound (polarity_scores (article_text a))))
                        "NEUTRAL" then 1 else 0).
Proof.
  unfold Main.score_article, Main.call, mbind, Main.M_bind.
  rewrite analyze_article_sentiment. cbn [overall_sentiment].
  destruct (get_sentiment_label_cases (compound (polarity_scores (article_text a))))
    as [-> | [-> | ->]];
    eexists; (split; [reflexivity|]); cbn -[analyze_article]; repeat split; lia.
Qed.

(** C9. [analyze_text] answers with the absent value exactly on the empty
    text.  The text of an article is its title, one space and its
    description, a missing field counting as the empty string; it is
    therefore never empty, every analysed article carries a sentiment
    result, and the scoring step of the orchestrator, which reads the
    label of that result, completes without an exception.  The sentiment
    that [analyze_article] stores is [analyze_text] applied to that
    text. *)
Theorem analyze_text_absent_iff_empty :
  (forall text, analyze_text textblob_polarity polarity_scores text = None
                <-> text = ""%string) /\
  (forall a, article_text a
             = (match title a with Some v => py_str v | None => "" end
                ++ " " ++
                match description a with Some v => py_str v | None => "" end)%string) /\
  (forall a, article_text a <> ""%string) /\
  (forall a, exists r,
      sentiment (analyze_article textblob_polarity polarity_scores a) = Some r) /\
  (forall a t st, exists t' st',
      Main.score_article textblob_polarity polarity_scores a t st = (Ok t', st')) /\
  (forall a,
      sentiment (analyze_article textblob_polarity polarity_scores a)
      = analyze_text textblob_polarity polarity_scores
          (match title a with Some v => py_str v | None => "" end
           ++ " " ++
           match description a with Some v => py_str v | None => "" end)%string) /\
  (forall a,
      as_title (analyze_article textblob_polarity polarity_scores a)
      = match title a with Some v => v | None => PStr "No title" end).
Proof.
  split; [|split; [|split; [|split; [|split; [|split]]]]].
  - intros text. unfold analyze_text. rewrite <- is_empty_true.
    destruct (is_empty text); split; congruence.
  - intros [[t|] [d|] src]; reflexivity.
  - intros a. apply append_space_nonempty.
  - intros a. rewrite analyze_article_sentiment. eauto.
  - intros a t st. destruct (score_article_ok a t st) as (t' & H & _). eauto.
  - intros [[t|] [d|] src]; reflexivity.
  - intros [[t|] [d|] src]; reflexivity.
Qed.

End SentimentProperties.

Lemma analyze_text_absent_iff_empty_witness :
  Sentiment.analyze_text Examples.textblob_polarity Examples.polarity_scores "" = None.
Proof.
  apply (proj1 (analyze_text_absent_iff_empty
                  Examples.textblob_polarity Examples.polarity_scores) ""%string).
  reflexivity.
Defined.

(** ** Facts on the string methods *)

Module StrFacts.

Lemma upper_char_idem (c : ascii) : Str.upper_char (Str.upper_char c) = Str.upper_char c.
Proof. destruct c as [[] [] [] [] [] [] [] []]; reflexivity. Qed.

Lemma upper_idem (s : string) : Str.upper (Str.upper s) = Str.upper s.
Proof.
  unfold Str.upper. induction s as [|c s IH]; simpl; [reflexivity|].
  rewrite upper_char_idem, IH. reflexivity.
Qed.

Lemma map_chars_app (f : ascii -> ascii) (s1 s2 : string) :
  Str.map_chars f (s1 ++ s2) = (Str.map_chars f s1 ++ Str.map_chars f s2)%string.
Proof.
  induction s1 as [|c s1 IH]; [reflexivity|].
  change (String c s1 ++ s2)%string with (String c (s1 ++ s2)).
  cbn [Str.map_chars]. rewrite IH. reflexivity.
Qed.

(** Replacing a character by upper-case text keeps a text upper-case. *)
Lemma upper_replace (old : ascii) (new s : string) :
  Str.upper new = new -> Str.upper s = s ->
  Str.upper (Str.replace old new s) = Str.replace old new s.
Proof.
  unfold Str.upper. intros Hnew. induction s as [|c s IH]; intros Hs; [reflexivity|].
  cbn [Str.map_chars] in Hs. injection Hs as Hc Hs'.
  cbn [Str.replace]. destruct (Ascii.eqb c old).
  - rewrite map_chars_app, Hnew, (IH Hs'). reflexivity.
  - cbn [Str.map_chars]. rewrite Hc, (IH Hs'). reflexivity.
Qed.

End StrFacts.

(** ** The stock data fetcher *)

Section StockProperties.

Import Stock.

Variable yf_info : string -> Exc (option (gmap string pyval)).
Variable round2 : float -> float.

Lemma last_default_irrelevant (l : list Bar) (x d d' : Bar) :
  List.last (x :: l) d = List.last (x :: l) d'.
Proof.
  revert x. induction l as [|y l IH]; intros x; [reflexivity|].
  change (List.last (y :: l) d = List.last (y :: l) d'). apply IH.
Qed.

Lemma last_of_cons (rest : list Bar) (first : Bar) :
  last (first :: rest) = Some (List.last rest first).
Proof.
  revert first. induction rest as [|y rest IH]; intros first; [reflexivity|].
  change (last (y :: rest) = Some (List.last (y :: rest) first)).
  rewrite IH. f_equal. destruct rest as [|z rest]; [reflexivity|].
  change (List.last (y :: z :: rest) first) with (List.last (z :: rest) first).
  apply last_default_irrelevant.
Qed.

(** C3. On every non-empty history [h], with first bar [b0] and last bar
    [bn], [calculate_price_change] returns a record: the change is the
    last close minus the first close, the percentage is that change
    divided by the first close and multiplied by 100, the two prices, the
    change and the percentage are each rounded to two decimals, and the
    trend is UP exactly when the change is greater than 0, a change that
    is 0 or negative giving DOWN. *)
Theorem calculate_price_change_first_last (h : list Bar) :
  h <> [] ->
  exists b0 bn r,
    head h = Some b0 /\ last h = Some bn /\
    calculate_price_change round2 (Some h) = Some r /\
    first_price r = round2 (Close b0) /\
    last_price r = round2 (Close bn) /\
    price_change r = round2 (Close bn - Close b0)%float /\
    percent_change r = round2 ((Close bn - Close b0) / Close b0 * 100)%float /\
    (trend r = UP <-> F.gt (Close bn - Close b0)%float 0 = true) /\
    (F.le (Close bn - Close b0)%float 0 = true -> trend r = DOWN).
Proof.
  destruct h as [|first rest]; [congruence|]. intros _.
  exists first, (List.last rest first). eexists.
  split; [reflexivity|]. split; [apply last_of_cons|].
  split; [reflexivity|].
  cbn [first_price last_price price_change percent_change trend].
  set (change := (Close (List.last rest first) - Close first)%float).
  repeat split.
  - destruct (F.gt change 0); congruence.
  - destruct (F.gt change 0); congruence.
  - intros Hle. rewrite (FloatFacts.le_not_gt _ _ Hle). reflexivity.
Qed.

(** The provider's answer decides the validation, and no exception
    leaves it. *)
Lemma validate_ticker_cases (symbol : string) :
  match yf_info (Str.upper symbol) with
  | Ok (Some d) =>
      match d !! "longName" with
      | Some v =>
          validate_ticker yf_info symbol
          = Ok (Valid {| ticker := Str.upper symbol;
                         name := v;
                         sector := Sentiment.dict_get d "sector" (PStr "Unknown");
                         industry := Sentiment.dict_get d "industry" (PStr "Unknown");
                         market_cap := Sentiment.dict_get d "marketCap" (PInt 0);
                         exchange := Sentiment.dict_get d "exchange" (PStr "Unknown") |})
      | None => validate_ticker yf_info symbol = Ok Invalid
      end
  | Ok None => validate_ticker yf_info symbol = Ok Invalid
  | Raise _ => validate_ticker yf_info symbol = Ok Invalid
  end.
Proof.
  unfold validate_ticker, has_key, info_truthy, Sentiment.dict_get.
  destruct (yf_info (Str.upper symbol)) as [[d|]|e]; cbn; try reflexivity.
  destruct (d !! "longName") as [v|] eqn:E.
  - case_bool_decide as Hd; [|reflexivity].
    subst d. rewrite lookup_empty in E. discriminate.
  - rewrite andb_false_r. reflexivity.
Qed.

Lemma validate_ticker_ok (symbol : string) :
  exists v, validate_ticker yf_info symbol = Ok v /\
            forall i, v = Valid i -> ticker i = Str.upper symbol.
Proof.
  pose proof (validate_ticker_cases symbol) as H.
  destruct (yf_info (Str.upper symbol)) as [[d|]|e];
    [destruct (d !! "longName")| |];
    rewrite H; eexists; (split; [reflexivity|]); intros i Hi;
    try discriminate; injection Hi as <-; reflexivity.
Qed.

(** C5, as the code has it.  [validate_ticker] always returns, and its
    answer is valid exactly when the provider's info is a dictionary with
    a [longName] key, whatever value the key holds; when the lookup raises,
    the answer is the invalid one. *)
Theorem validate_ticker_valid_iff_long_name_key (symbol : string) :
  exists v, validate_ticker yf_info symbol = Ok v /\
    (valid v = true <->
       exists d, yf_info (Str.upper symbol) = Ok (Some d) /\ is_Some (d !! "longName")) /\
    (forall e, yf_info (Str.upper symbol) = Raise e -> v = Invalid).
Proof.
  pose proof (validate_ticker_cases symbol) as H.
  destruct (yf_info (Str.upper symbol)) as [[d|]|e];
    [destruct (d !! "longName") as [v|] eqn:E| |];
    rewrite H; eexists; (split; [reflexivity|]); (split; [split|]);
    cbn [valid]; try discriminate; try reflexivity.
  - intros _. exists d. rewrite E. eauto.
  - intros (d' & Hd & Hs). injection Hd as <-. rewrite E in Hs.
    destruct Hs as [? ?]. discriminate.
  - intros (d' & Hd & _). discriminate.
  - intros (d' & Hd & _). discriminate.
Qed.

End StockProperties.

Lemma calculate_price_change_first_last_witness :
  exists r, Stock.calculate_price_change Examples.no_rounding (Some Examples.week) = Some r /\
            Stock.price_change r = 3%float /\ Stock.trend r = Stock.UP.
Proof.
  destruct (calculate_price_change_first_last Examples.no_rounding Examples.week)
    as (b0 & bn & r & H0 & Hn & Hr & _ & _ & Hc & _ & Ht & _).
  - discriminate.
  - injection H0 as <-. injection Hn as <-.
    exists r. split; [exact Hr|]. split; [exact Hc|].
    apply Ht. reflexivity.
Defined.

Lemma validate_ticker_valid_iff_long_name_key_witness :
  exists v, Stock.validate_ticker Examples.only_apple "aapl" = Ok v /\ Stock.valid v = true.
Proof.
  destruct (validate_ticker_valid_iff_long_name_key Examples.only_apple "aapl")
    as (v & Hv & Hiff & _).
  exists v. split; [exact Hv|]. apply Hiff.
  eexists. split; [reflexivity|]. vm_compute. eauto.
Defined.

(** C5, as stated, fails: a record whose long name is the empty string
    validates. *)
Lemma validate_ticker_blank_long_name :
  ~ (AsStated.validates Examples.blank_name "XYZ" = true <->
     AsStated.long_name_nonempty (Examples.blank_name (Str.upper "XYZ")) = true).
Proof.
  intros [H _]. specialize (H eq_refl). vm_compute in H. discriminate.
Qed.

(** ** Ticker resolution *)

Section ResolutionProperties.

Import Stock.

Variable yf_info : string -> Exc (option (gmap string pyval)).

Lemma validates_valid (symbol : string) (i : TickerInfo) :
  validate_ticker yf_info symbol = Ok (Valid i) ->
  AsStated.validates yf_info symbol = true /\ ticker i = Str.upper symbol.
Proof.
  intros H. unfold AsStated.validates. rewrite H. split; [reflexivity|].
  destruct (validate_ticker_ok yf_info symbol) as (v & Hv & Ht).
  rewrite H in Hv. injection Hv as <-. apply Ht. reflexivity.
Qed.

Lemma validates_invalid (symbol : string) :
  validate_ticker yf_info symbol = Ok Invalid ->
  AsStated.validates yf_info symbol = false.
Proof. intros H. unfold AsStated.validates. rewrite H. reflexivity. Qed.

Lemma lookup_common_find (query : string) (table : list (string * string)) :
  lookup_common query table
  = snd <$> List.find (fun entry => String.eqb (Str.lower (fst entry)) (Str.lower query))
              table.
Proof.
  induction table as [|[name t] table IH]; [reflexivity|].
  cbn [lookup_common List.find fst]. rewrite (String.eqb_sym (Str.lower name)).
  destruct (String.eqb (Str.lower query) (Str.lower name)); [reflexivity|exact IH].
Qed.

Lemma try_variations_find (vs : list string) :
  (forall v, In v vs -> Str.upper v = v) ->
  try_variations yf_info vs
  = Ok (List.find (fun v => Nat.leb (String.length v) 10 && AsStated.validates yf_info v) vs).
Proof.
  induction vs as [|v vs IH]; intros Hup; [reflexivity|].
  cbn [try_variations List.find].
  destruct (Nat.leb (String.length v) 10); cbn [andb].
  - destruct (validate_ticker_ok yf_info v) as ([|i] & Hv & Ht);
      rewrite Hv; cbn.
    + rewrite (validates_invalid v Hv). apply IH. intros w Hw. apply Hup. now right.
    + rewrite (proj1 (validates_valid v i Hv)).
      rewrite (Ht i eq_refl), (Hup v); [reflexivity|now left].
  - apply IH. intros w Hw. apply Hup. now right.
Qed.

Lemma variations_upper (query v : string) :
  In v (variations query) -> Str.upper v = v.
Proof.
  unfold variations. cbn [In].
  intros [<- | [<- | [<- | [<- | []]]]];
    first [apply StrFacts.upper_idem
          | apply StrFacts.upper_replace; [reflexivity | apply StrFacts.upper_idem]].
Qed.

(** The code follows the four steps on the stripped query. *)
Lemma search_ticker_resolve (query : string) :
  search_ticker yf_info query = Ok (AsStated.resolve yf_info (Str.strip query)).
Proof.
  unfold search_ticker, AsStated.resolve, try_direct.
  set (q := Str.strip query).
  fold (AsStated.looks_like_ticker q).
  assert (Hrest :
    match lookup_common q common_names with
    | Some t => mret t
    | None =>
        found ← try_variations yf_info (variations q);
        match found with
        | Some t => mret t
        | None => mret (Str.upper q)
        end
    end
    = Ok match AsStated.common_name_match q with
         | Some t => t
         | None =>
             match AsStated.first_valid_variant yf_info q with
             | Some v => v
             | None => Str.upper q
             end
         end).
  { rewrite lookup_common_find. fold (AsStated.common_name_match q).
    destruct (AsStated.common_name_match q); [reflexivity|].
    rewrite (try_variations_find _ (variations_upper q)).
    set (r := List.find _ (variations q)).
    change (AsStated.first_valid_variant yf_info q) with r.
    destruct r; reflexivity. }
  destruct (AsStated.looks_like_ticker q); cbn [andb].
  - destruct (validate_ticker_ok yf_info q) as ([|i] & Hv & Ht); rewrite Hv; cbn.
    + rewrite (validates_invalid q Hv). exact Hrest.
    + rewrite (proj1 (validates_valid q i Hv)), (Ht i eq_refl). reflexivity.
  - cbn. exact Hrest.
Qed.

Lemma common_names_upper (t : string) :
  In t (map snd common_names) -> Str.upper t = t.
Proof.
  cbn. intros H.
  repeat (destruct H as [<- | H]; [reflexivity|]). destruct H.
Qed.

Lemma resolve_upper (q : string) :
  Str.upper (AsStated.resolve yf_info q) = AsStated.resolve yf_info q.
Proof.
  unfold AsStated.resolve.
  destruct (AsStated.looks_like_ticker q && AsStated.validates yf_info q);
    [apply StrFacts.upper_idem|].
  destruct (AsStated.common_name_match q) as [t|] eqn:E.
  - unfold AsStated.common_name_match in E.
    destruct (List.find _ common_names) as [[n t']|] eqn:Ef in E; [|discriminate].
    injection E as <-. apply find_some in Ef. destruct Ef as [Ef _].
    apply common_names_upper. exact (in_map snd _ _ Ef).
  - destruct (AsStated.first_valid_variant yf_info q) as [v|] eqn:V.
    + unfold AsStated.first_valid_variant in V.
      apply find_some in V. destruct V as [V _].
      exact (variations_upper q v V).
    + apply StrFacts.upper_idem.
Qed.

(** C4, as the code has it.  Leading and trailing whitespace is first
    stripped from the query; on the stripped query the four steps are
    taken in order, the first match winning: direct validation of a
    ticker-like query, the case-insensitive table of common names, the
    first valid variant of at most ten characters, and else the
    upper-cased stripped query.  A query that validates in the first
    step resolves to its upper-case form whatever the table and the
    variants would give. *)
Theorem search_ticker_steps_on_stripped_query (query : string) :
  search_ticker yf_info query = Ok (AsStated.resolve yf_info (Str.strip query)) /\
  (AsStated.looks_like_ticker (Str.strip query) = true ->
   AsStated.validates yf_info (Str.strip query) = true ->
   search_ticker yf_info query = Ok (Str.upper (Str.strip query))).
Proof.
  split; [apply search_ticker_resolve|].
  intros H1 H2. rewrite search_ticker_resolve. unfold AsStated.resolve.
  rewrite H1, H2. reflexivity.
Qed.

(** C10. [search_ticker] returns on every query, whatever the provider
    does, and the string it returns is equal to its own upper-case
    form. *)
Theorem search_ticker_returns_upper_case (query : string) :
  exists t, search_ticker yf_info query = Ok t /\ Str.upper t = t.
Proof.
  exists (AsStated.resolve yf_info (Str.strip query)).
  split; [apply search_ticker_resolve|apply resolve_upper].
Qed.

End ResolutionProperties.

Lemma search_ticker_steps_on_stripped_query_witness :
  Stock.search_ticker Examples.only_apple "AAPL" = Ok "AAPL"%string.
Proof.
  apply (proj2 (search_ticker_steps_on_stripped_query Examples.only_apple "AAPL"));
    reflexivity.
Defined.

(** C4, as stated on the query itself, fails: with surrounding whitespace
    the query matches the table of common names only once it is stripped,
    and the fallback is the stripped query. *)
Lemma search_ticker_padded_query :
  Stock.search_ticker Examples.offline " tesla" = Ok "TSLA"%string /\
  AsStated.resolve Examples.offline " tesla" = " TESLA"%string /\
  Stock.search_ticker Examples.offline " tesla"
  <> Ok (AsStated.resolve Examples.offline " tesla").
Proof. repeat split. vm_compute. discriminate. Qed.

(** ** The news fetcher *)

Section NewsProperties.

Import News.

Variable api_key week_ago today : string.
Variable requests_get : string -> Parameters -> Exc Response.

(** C6. [get_news_for_company] always returns a list to its caller, and
    the list is empty when the request raises, when the status of the
    response is not 200, and when decoding the body of a 200 response
    raises. *)
Theorem get_news_empty_on_failure (company_name : string) :
  let outcome :=
    requests_get base_url
      {| q := company_name; from := week_ago; to := today;
         sortBy := "popularity"; apiKey := api_key; language := "en" |} in
  let fetched := get_news_for_company api_key week_ago today requests_get company_name in
  (exists articles, fetched = Ok articles) /\
  (forall e, outcome = Raise e -> fetched = Ok []) /\
  (forall response, outcome = Ok response -> status_code response <> 200%Z ->
     fetched = Ok []) /\
  (forall response e, outcome = Ok response -> json response = Raise e ->
     fetched = Ok []).
Proof.
  cbv zeta. unfold get_news_for_company.
  destruct (requests_get base_url _) as [response|e] eqn:E; cbn.
  - destruct (Z.eqb_spec (status_code response) 200) as [Hs|Hs]; cbn.
    + destruct (json response) as [[|[| |l]]|e] eqn:J; cbn;
        (split; [eauto|]); (split; [discriminate|]);
        (split; [intros r Hr Hne; injection Hr as <-; contradiction|]);
        intros r e' Hr Hj; injection Hr as <-; first [reflexivity | congruence].
    + split; [eauto|]. split; [discriminate|]. split; reflexivity.
  - split; [eauto|]. repeat split; reflexivity.
Qed.

End NewsProperties.

Lemma get_news_empty_on_failure_witness :
  News.get_news_for_company "key" "2024-01-01" "2024-01-08" Examples.not_found "Apple"
  = Ok [] /\
  News.get_news_for_company "key" "2024-01-01" "2024-01-08" Examples.garbled "Apple"
  = Ok [].
Proof.
  split.
  - refine (proj1 (proj2 (proj2 (get_news_empty_on_failure
              "key" "2024-01-01" "2024-01-08" Examples.not_found "Apple"))) _ eq_refl _).
    discriminate.
  - exact (proj2 (proj2 (proj2 (get_news_empty_on_failure
              "key" "2024-01-01" "2024-01-08" Examples.garbled "Apple"))) _ _ eq_refl eq_refl).
Defined.

(** ** The orchestrator *)

Section ConclusionProperties.

Import Main.

(** The lines chosen by the conclusion block follow the five-way rule on
    the mean compound score [m] and the optional price change [p]: above 0.1 with a
    percentage above 0, the bullish text; above 0.1 with no price change
    or a percentage at most 0, the "not rising yet" text; below -0.1 with
    a percentage below 0, the bearish text; below -0.1 with no price
    change or a percentage at least 0, the "holding steady" text; and
    from -0.1 to 0.1, both ends included, the neutral text whatever the
    price change. *)
Theorem conclusion_five_way (m : float) (p : option Stock.PriceChange) :
  (F.gt m 0.1 = true ->
   (exists r, p = Some r /\ F.gt (Stock.percent_change r) 0 = true) ->
   conclusion m p = bullish) /\
  (F.gt m 0.1 = true ->
   (p = None \/ exists r, p = Some r /\ F.le (Stock.percent_change r) 0 = true) ->
   conclusion m p = positive_not_rising) /\
  (F.lt m (-0.1) = true ->
   (exists r, p = Some r /\ F.lt (Stock.percent_change r) 0 = true) ->
   conclusion m p = bearish) /\
  (F.lt m (-0.1) = true ->
   (p = None \/ exists r, p = Some r /\ F.ge (Stock.percent_change r) 0 = true) ->
   conclusion m p = negative_holding) /\
  (F.ge m (-0.1) = true -> F.le m 0.1 = true ->
   conclusion m p = neutral_no_signal).
Proof.
  unfold conclusion. repeat split.
  - intros -> (r & -> & ->). reflexivity.
  - intros -> [-> | (r & -> & H)]; [reflexivity|].
    rewrite (FloatFacts.le_not_gt _ _ H). reflexivity.
  - intros H (r & -> & ->). rewrite (FloatFacts.lt_neg_tenth_not_gt m H), H. reflexivity.
  - intros H Hp. rewrite (FloatFacts.lt_neg_tenth_not_gt m H), H.
    destruct Hp as [-> | (r & -> & Hr)]; [reflexivity|].
    rewrite (FloatFacts.ge_not_lt _ _ Hr). reflexivity.
  - intros Hge Hle.
    rewrite (FloatFacts.le_not_gt _ _ Hle), (FloatFacts.ge_not_lt _ _ Hge). reflexivity.
Qed.

End ConclusionProperties.

Lemma conclusion_five_way_witness :
  Main.conclusion 0.2 (Some Examples.rising) = Main.bullish /\
  Main.conclusion 0.2 None = Main.positive_not_rising /\
  Main.conclusion (-0.2) (Some Examples.falling) = Main.bearish /\
  Main.conclusion (-0.2) (Some Examples.rising) = Main.negative_holding /\
  Main.conclusion 0.1 (Some Examples.rising) = Main.neutral_no_signal.
Proof.
  split; [|split; [|split; [|split]]].
  - apply (proj1 (conclusion_five_way 0.2 (Some Examples.rising))); [reflexivity|].
    exists Examples.rising. split; reflexivity.
  - apply (proj1 (proj2 (conclusion_five_way 0.2 None))); [reflexivity|].
    left. reflexivity.
  - apply (proj1 (proj2 (proj2 (conclusion_five_way (-0.2) (Some Examples.falling)))));
      [reflexivity|].
    exists Examples.falling. split; reflexivity.
  - apply (proj1 (proj2 (proj2 (proj2
             (conclusion_five_way (-0.2) (Some Examples.rising))))));
      [reflexivity|].
    right. exists Examples.rising. split; reflexivity.
  - apply (proj2 (proj2 (proj2 (proj2
             (conclusion_five_way 0.1 (Some Examples.rising)))))); reflexivity.
Defined.

Section LoggingProperties.

Import Main.

Lemma only_logs_ret {A} (a : A) : only_logs (mret a).
Proof. intros st. split; [reflexivity|]. exists []. cbn. now rewrite app_nil_r. Qed.

Lemma only_logs_raise {A} (e : exn) : only_logs (@raise A e).
Proof. intros st. split; [reflexivity|]. exists []. cbn. now rewrite app_nil_r. Qed.

Lemma only_logs_call_free {A} (c : Exc A) : only_logs (call_free c).
Proof. intros st. split; [reflexivity|]. exists []. cbn. now rewrite app_nil_r. Qed.

Lemma only_logs_emit (e : Event) : only_logs (emit e).
Proof. intros st. split; [reflexivity|]. exists [e]. reflexivity. Qed.

Lemma only_logs_call {A} (e : Event) (c : Exc A) : only_logs (call e c).
Proof. intros st. split; [reflexivity|]. exists [e]. reflexivity. Qed.

Lemma only_logs_bind {A B} (m : M A) (k : A -> M B) :
  only_logs m -> (forall a, only_logs (k a)) -> only_logs (m ≫= k).
Proof.
  intros Hm Hk st. unfold mbind, M_bind.
  destruct (Hm st) as [Hh [tr Ht]].
  destruct (m st) as [[a|e] st1]; cbn [snd] in *.
  - destruct (Hk a st1) as [Hh' [tr' Ht']]. split; [congruence|].
    exists (tr ++ tr')%list. rewrite Ht', Ht, app_assoc. reflexivity.
  - split; [exact Hh|]. exists tr. exact Ht.
Qed.

Ltac logs :=
  unfold print, print_line;
  repeat first
    [ apply only_logs_ret | apply only_logs_raise | apply only_logs_emit
    | apply only_logs_call | apply only_logs_call_free
    | apply only_logs_bind; [|intros ?]
    | match goal with
      | |- only_logs (match ?x with _ => _ end) => destruct x
      end ].

Lemma only_logs_for_each {A} (xs : list A) (body : A -> M unit) :
  (forall x, only_logs (body x)) -> only_logs (for_each xs body).
Proof.
  intros Hb. induction xs as [|x xs IH]; cbn [for_each]; logs; [apply Hb|exact IH].
Qed.

Lemma only_logs_print_headlines (items : list Sentiment.ArticleSentiment) (i : nat) :
  only_logs (print_headlines i items).
Proof.
  revert i. induction items as [|item items IH]; intros i; cbn [print_headlines].
  - logs.
  - apply only_logs_bind; [unfold print_headline; logs|intros _; apply IH].
Qed.

Lemma only_logs_display_results company_name sentiments pos_count neg_count neu_count
    avg_sentiment current_price price_changes :
  only_logs (display_results company_name sentiments pos_count neg_count neu_count
               avg_sentiment current_price price_changes).
Proof.
  unfold display_results.
  repeat first
    [ apply only_logs_print_headlines
    | apply only_logs_for_each; intros ?
    | progress logs ].
Qed.

End LoggingProperties.

Section OrchestratorProperties.

Import Sentiment Main.

Variable textblob_polarity : string -> float.
Variable polarity_scores : string -> VaderScores.
Variable api_key week_ago today : string.
Variable requests_get : string -> News.Parameters -> Exc News.Response.
Variable yf_info : string -> Exc (option (gmap string pyval)).
Variable yf_history : string -> nat -> Exc (list Stock.Bar).
Variable yf_history_1d : string -> Exc (list Stock.Bar).
Variable round2 : float -> float.
Variable fsum : list float -> float.
Variable now : string.

Local Abbreviation analyze := (analyze_article textblob_polarity polarity_scores).
Local Abbreviation count := (AsStated.count_label polarity_scores).
Local Abbreviation news :=
  (News.get_news_for_company api_key week_ago today requests_get).
Local Abbreviation run :=
  (analyze_company textblob_polarity polarity_scores api_key week_ago today
     requests_get yf_info yf_history yf_history_1d round2 fsum now).

Lemma count_label_cons (label : string) (a : Article) (l : list Article) :
  count label (a :: l)
  = (if String.eqb (AsStated.label_of polarity_scores a) label then 1 else 0)
    + count label l.
Proof.
  unfold AsStated.count_label. cbn [List.filter].
  destruct (String.eqb _ label); reflexivity.
Qed.

(** The scoring loop from any starting tally. *)
Lemma score_loop_from (l : list Article) (t0 : Tally) (st : State) :
  exists t,
    score_loop textblob_polarity polarity_scores l t0 st
    = (Ok t, {| search_history := search_history st;
                effects := effects st ++ map Scored l |}) /\
    sentiments t = (sentiments t0 ++ map analyze l)%list /\
    positive_count t = positive_count t0 + count "POSITIVE" l /\
    negative_count t = negative_count t0 + count "NEGATIVE" l /\
    neutral_count t = neutral_count t0 + count "NEUTRAL" l /\
    positive_count t + negative_count t + neutral_count t
    = positive_count t0 + negative_count t0 + neutral_count t0 + List.length l.
Proof.
  revert t0 st. induction l as [|a l IH]; intros t0 st.
  - exists t0. cbn. rewrite !app_nil_r. unfold AsStated.count_label. cbn.
    destruct st. repeat split; lia.
  - destruct (score_article_ok textblob_polarity polarity_scores a t0 st)
      as (t1 & H1 & Hs1 & Hsum1 & Hp1 & Hn1 & Hu1).
    destruct (IH t1 {| search_history := search_history st;
                       effects := effects st ++ [Scored a] |})
      as (t & H & Hs & Hp & Hn & Hu & Hsum).
    exists t. cbn [score_loop]. unfold mbind, M_bind. rewrite H1, H.
    cbn [search_history effects map List.length] in *.
    rewrite <- app_assoc. split; [reflexivity|].
    rewrite Hs, Hs1, <- app_assoc, !count_label_cons.
    unfold AsStated.label_of, AsStated.compound_of.
    repeat split; lia.
Qed.

Lemma compounds_of_analyzed (l : list Article) :
  compounds (map analyze l) = Ok (map (AsStated.compound_of polarity_scores) l).
Proof.
  induction l as [|a l IH]; [reflexivity|].
  cbn [map compounds]. rewrite analyze_article_sentiment, IH. reflexivity.
Qed.

(** The scoring loop and the average on the first ten articles. *)
Lemma score_loop_first_ten (articles : list Article) (st : State) :
  articles <> [] ->
  let scored := firstn 10 articles in
  exists t,
    score_loop textblob_polarity polarity_scores scored empty_tally st
    = (Ok t, {| search_history := search_history st;
                effects := effects st ++ map Scored scored |}) /\
    sentiments t = map analyze scored /\
    List.length (sentiments t) = Nat.min 10 (List.length articles) /\
    positive_count t = count "POSITIVE" scored /\
    negative_count t = count "NEGATIVE" scored /\
    neutral_count t = count "NEUTRAL" scored /\
    positive_count t + negative_count t + neutral_count t = List.length (sentiments t) /\
    average fsum (sentiments t)
    = Ok (fsum (map (AsStated.compound_of polarity_scores) scored)
          / F.of_nat (List.length (sentiments t)))%float.
Proof.
  intros Hne scored.
  destruct (score_loop_from scored empty_tally st) as (t & H & Hs & Hp & Hn & Hu & Hsum).
  cbn [empty_tally sentiments positive_count negative_count neutral_count app] in *.
  exists t. split; [exact H|]. split; [exact Hs|].
  assert (Hlen : List.length (sentiments t) = Nat.min 10 (List.length articles)).
  { rewrite Hs, length_map. apply length_firstn. }
  repeat split; try assumption.
  - rewrite Hs, length_map. cbn in Hsum. rewrite Hsum. reflexivity.
  - unfold average. rewrite Hs at 1. rewrite compounds_of_analyzed. cbn.
    destruct (sentiments t) as [|s ss] eqn:E; [|reflexivity].
    exfalso. destruct articles as [|a rest]; [congruence|].
    cbn in Hlen. discriminate.
Qed.

Lemma get_stock_data_ok (company_name : string) (days : nat) :
  exists r, Stock.get_stock_data yf_info yf_history company_name days = Ok r.
Proof.
  unfold Stock.get_stock_data, Stock.get_stock_ticker.
  rewrite search_ticker_resolve. cbn.
  destruct (yf_history _ days) as [[|b h]|e]; cbn; eauto.
  destruct (yf_info _) as [i|e]; cbn; eauto.
Qed.

Lemma get_current_price_ok (company_name : string) :
  exists r, Stock.get_current_price yf_info yf_history_1d round2 company_name = Ok r.
Proof.
  unfold Stock.get_current_price, Stock.get_stock_ticker.
  rewrite search_ticker_resolve. cbn.
  destruct (yf_history_1d _) as [[|b h]|e]; cbn; eauto.
Qed.

Lemma analyze_company_failed (company_name : string) (st : State) (e : exn) :
  news company_name = Raise e ->
  run company_name st
  = (Raise e,
     {| search_history :=
          search_history st ++ [{| company := company_name; timestamp := now |}];
        effects := effects st ++ opening now company_name |}).
Proof.
  intros H. unfold analyze_company, mbind, M_bind, append_history, print, emit, call.
  cbn [search_history effects]. rewrite H. unfold opening.
  rewrite <- !app_assoc. reflexivity.
Qed.

Lemma analyze_company_empty (company_name : string) (st : State) :
  news company_name = Ok [] ->
  run company_name st
  = (Ok tt,
     {| search_history :=
          search_history st ++ [{| company := company_name; timestamp := now |}];
        effects := effects st ++ opening now company_name
                   ++ [Stdout (Text "No articles found. Try again.")] |}).
Proof.
  intros H. unfold analyze_company, mbind, M_bind, append_history, print, emit, call.
  cbn [search_history effects]. rewrite H. unfold opening. cbn [is_nil].
  cbn [search_history effects]. rewrite <- !app_assoc. reflexivity.
Qed.

(** The state in which the scoring loop starts. *)
Lemma analyze_company_report (company_name : string) (articles : list Article)
    (st : State) (t : Tally) (avg : float) :
  let st1 :=
    {| search_history :=
         search_history st ++ [{| company := company_name; timestamp := now |}];
       effects :=
         effects st ++ opening now company_name
         ++ [Stdout (Text (Str.nl ++ "STEP 2: Analyzing sentiment of "
                           ++ Str.of_nat (List.length articles) ++ " articles"))] |} in
  news company_name = Ok articles -> articles <> [] ->
  score_loop textblob_polarity polarity_scores (firstn 10 articles) empty_tally st1
  = (Ok t, {| search_history := search_history st1;
              effects := effects st1 ++ map Scored (firstn 10 articles) |}) ->
  average fsum (sentiments t) = Ok avg ->
  exists current_price price_changes,
    run company_name st
    = display_results company_name (firstn 5 (sentiments t))
        (positive_count t) (negative_count t) (neutral_count t) avg
        current_price price_changes
        {| search_history := search_history st1;
           effects :=
             effects st1 ++ map Scored (firstn 10 articles)
             ++ [Stdout (Text (Str.nl ++ "STEP 3: Pulling stock data"));
                 StockFetch company_name 7; PriceFetch company_name] |}.
Proof.
  intros st1 H Hne Hloop Havg.
  destruct (get_stock_data_ok company_name 7) as (stock & Hstock).
  destruct (get_current_price_ok company_name) as (price & Hprice).
  exists price,
    match stock with
    | Some h => Stock.calculate_price_change round2 (Some h)
    | None => None
    end.
  unfold analyze_company, mbind, M_bind, append_history, print, emit, call, call_free.
  cbn [search_history effects]. rewrite H.
  destruct articles as [|a rest]; [congruence|]. cbn [is_nil].
  cbn [search_history effects].
  match goal with
  | |- context [score_loop _ _ _ _ ?s] => replace s with st1
  end.
  2:{ unfold st1, opening. rewrite <- !app_assoc. reflexivity. }
  rewrite Hloop, Havg, Hstock, Hprice.
  cbn [search_history effects]. rewrite <- !app_assoc. reflexivity.
Qed.

(** C8. When the news fetch gives a non-empty list of articles, the
    request scores the first ten of them (all of them when there are
    fewer), in order; the three counters handed to the report are the
    numbers of POSITIVE, NEGATIVE and NEUTRAL labels among the scored
    articles and add up to the number of scored articles; and the average
    handed to the report is the sum of the compound scores of the scored
    articles divided by their number. *)
Theorem analyze_company_scores_first_ten
    (company_name : string) (articles : list Article) (st : State) :
  news company_name = Ok articles -> articles <> [] ->
  let scored := firstn 10 articles in
  let st1 :=
    {| search_history :=
         search_history st ++ [{| company := company_name; timestamp := now |}];
       effects :=
         effects st ++ opening now company_name
         ++ [Stdout (Text (Str.nl ++ "STEP 2: Analyzing sentiment of "
                           ++ Str.of_nat (List.length articles) ++ " articles"))] |} in
  exists t current_price price_changes,
    sentiments t = map analyze scored /\
    List.length (sentiments t) = Nat.min 10 (List.length articles) /\
    positive_count t = count "POSITIVE" scored /\
    negative_count t = count "NEGATIVE" scored /\
    neutral_count t = count "NEUTRAL" scored /\
    positive_count t + negative_count t + neutral_count t = List.length (sentiments t) /\
    run company_name st
    = display_results company_name (firstn 5 (sentiments t))
        (positive_count t) (negative_count t) (neutral_count t)
        (fsum (map (AsStated.compound_of polarity_scores) scored)
         / F.of_nat (List.length (sentiments t)))%float
        current_price price_changes
        {| search_history := search_history st1;
           effects :=
             effects st1 ++ map Scored scored
             ++ [Stdout (Text (Str.nl ++ "STEP 3: Pulling stock data"));
                 StockFetch company_name 7; PriceFetch company_name] |}.
Proof.
  intros H Hne scored st1.
  destruct (score_loop_first_ten articles st1 Hne)
    as (t & Hloop & Hs & Hlen & Hp & Hn & Hu & Hsum & Havg).
  fold scored in Hloop, Hs, Hp, Hn, Hu, Havg.
  destruct (analyze_company_report company_name articles st t _ H Hne Hloop Havg)
    as (price & changes & Hrun).
  exists t, price, changes.
  repeat (split; [assumption|]).
  exact Hrun.
Qed.

(** C7. Every request appends its history entry, made of the query and
    the time stamp, as its first effect and before the news fetch, so the
    entry is in the history whatever the outcome of the request; and when
    the news fetch returns no article the request ends there, having
    scored nothing and fetched no stock data. *)
Theorem analyze_company_history_then_news (company_name : string) (st : State) :
  (search_history (run company_name st).2
   = (search_history st ++ [{| company := company_name; timestamp := now |}])%list /\
   exists rest,
     effects (run company_name st).2
     = (effects st ++ opening now company_name ++ rest)%list) /\
  (news company_name = Ok [] ->
   run company_name st
   = (Ok tt,
      {| search_history :=
           search_history st ++ [{| company := company_name; timestamp := now |}];
         effects := effects st ++ opening now company_name
                    ++ [Stdout (Text "No articles found. Try again.")] |})).
Proof.
  split; [|apply analyze_company_empty].
  destruct (news company_name) as [[|a rest]|e] eqn:H.
  - rewrite (analyze_company_empty company_name st H). cbn. eauto.
  - assert (Hne : a :: rest <> []) by discriminate.
    match goal with
    | |- context [search_history (?r ?c ?s).2] => set (outcome := r c s)
    end.
    destruct (score_loop_first_ten (a :: rest)
                {| search_history :=
                     search_history st ++ [{| company := company_name; timestamp := now |}];
                   effects :=
                     effects st ++ opening now company_name
                     ++ [Stdout (Text (Str.nl ++ "STEP 2: Analyzing sentiment of "
                                       ++ Str.of_nat (List.length (a :: rest))
                                       ++ " articles"))] |} Hne)
      as (t & Hloop & _ & _ & _ & _ & _ & _ & Havg).
    destruct (analyze_company_report company_name (a :: rest) st t _ H Hne Hloop Havg)
      as (price & changes & Hrun).
    subst outcome. rewrite Hrun.
    match goal with
    | |- context [display_results ?c ?s ?p ?n ?u ?avg ?cp ?pc ?s0] =>
        destruct (only_logs_display_results c s p n u avg cp pc s0) as [Hh [added Ha]]
    end.
    rewrite Hh, Ha. cbn [search_history effects]. split; [reflexivity|].
    eexists. rewrite <- !app_assoc. reflexivity.
  - rewrite (analyze_company_failed company_name st e H). cbn.
    split; [reflexivity|]. exists []. reflexivity.
Qed.

End OrchestratorProperties.

Lemma analyze_company_scores_first_ten_witness :
  exists t,
    Main.positive_count t = 1 /\ Main.negative_count t = 1 /\ Main.neutral_count t = 1 /\
    List.length (Main.sentiments t) = 3.
Proof.
  destruct (analyze_company_scores_first_ten
              Examples.textblob_polarity Examples.polarity_scores
              "key" "2024-01-01" "2024-01-08" Examples.three_found
              Examples.only_apple Examples.history Examples.history_1d
              Examples.no_rounding Examples.running_sum "2024-01-08 09:30:00"
              "Apple" Examples.three_articles Examples.fresh eq_refl)
    as (t & _ & _ & _ & Hlen & Hp & Hn & Hu & _).
  - discriminate.
  - exists t. rewrite Hp, Hn, Hu, Hlen. repeat split.
Defined.

Lemma analyze_company_history_then_news_witness :
  Examples.request Examples.not_found "Apple" Examples.fresh
  = (Ok tt,
     {| Main.search_history :=
          [{| Main.company := "Apple"; Main.timestamp := "2024-01-08 09:30:00" |}];
        Main.effects :=
          Main.opening "2024-01-08 09:30:00" "Apple"
          ++ [Main.Stdout (Main.Text "No articles found. Try again.")] |}).
Proof.
  exact (proj2 (analyze_company_history_then_news
                  Examples.textblob_polarity Examples.polarity_scores
                  "key" "2024-01-01" "2024-01-08" Examples.not_found
                  Examples.only_apple Examples.history Examples.history_1d
                  Examples.no_rounding Examples.running_sum "2024-01-08 09:30:00"
                  "Apple" Examples.fresh) eq_refl).
Defined.

(** * Further properties of the components *)

(** ** The news fetcher on a successful response *)

Section NewsSuccess.

Import News.

Variable api_key week_ago today : string.
Variable requests_get : string -> Parameters -> Exc Response.

(** X1. On a response with status 200 the fetch returns the list stored
    under [articles] as it is; a body without that key gives the empty
    list, and a body that is not an object, or whose [articles] value is
    null, gives the empty list as well (the error is absorbed). *)
Theorem get_news_on_status_200 (company_name : string) (response : Response) :
  requests_get base_url
    {| q := company_name; from := week_ago; to := today;
       sortBy := "popularity"; apiKey := api_key; language := "en" |} = Ok response ->
  status_code response = 200%Z ->
  let fetched := get_news_for_company api_key week_ago today requests_get company_name in
  (forall l, json response = Ok (Object (Items l)) -> fetched = Ok l) /\
  (json response = Ok (Object Missing) -> fetched = Ok []) /\
  (json response = Ok (Object Null) -> fetched = Ok []) /\
  (json response = Ok NotAnObject -> fetched = Ok []).
Proof.
  intros Hr Hs. cbv zeta. unfold get_news_for_company. rewrite Hr. cbn.
  rewrite Hs. cbn.
  repeat split; [intros l Hj|intros Hj..]; rewrite Hj; reflexivity.
Qed.

End NewsSuccess.

Lemma get_news_on_status_200_witness :
  News.get_news_for_company "key" "2024-01-01" "2024-01-08" Examples.three_found "Apple"
  = Ok Examples.three_articles.
Proof.
  refine (proj1 (get_news_on_status_200 "key" "2024-01-01" "2024-01-08"
                   Examples.three_found "Apple" _ eq_refl eq_refl) _ eq_refl).
Defined.

(** ** Price histories *)

Module FlatFacts.

Local Open Scope float_scope.

(** The difference of a number with itself is a zero or not a number,
    and so is never greater than 0. *)
Lemma SFsub_diag_not_positive (x : spec_float) :
  SFltb (S754_zero false) (SF64sub x x) = false.
Proof.
  destruct x as [s|s| |s m e]; unfold SF64sub, SFsub.
  - destruct s; reflexivity.
  - destruct s; reflexivity.
  - reflexivity.
  - rewrite Z.sub_diag. reflexivity.
Qed.

Lemma sub_diag_not_gt (c : float) : F.gt (c - c) 0 = false.
Proof.
  unfold F.gt. rewrite ltb_spec, sub_spec.
  FloatFacts.eval_sf 0. apply SFsub_diag_not_positive.
Qed.

End FlatFacts.

Section HistoryProperties.

Import Stock.

Variable yf_info : string -> Exc (option (gmap string pyval)).
Variable yf_history : string -> nat -> Exc (list Bar).
Variable yf_history_1d : string -> Exc (list Bar).
Variable round2 : float -> float.

(** X3. A history whose first and last closing prices are the same
    number is reported with the trend DOWN; this is the case of every
    history of a single bar. *)
Theorem calculate_price_change_flat (h : list Bar) (b0 bn : Bar) :
  head h = Some b0 -> last h = Some bn -> Close b0 = Close bn ->
  exists r, calculate_price_change round2 (Some h) = Some r /\ trend r = DOWN.
Proof.
  destruct h as [|first rest]; [discriminate|].
  intros H0 Hn Heq. injection H0 as ->.
  rewrite last_of_cons in Hn. injection Hn as Hn.
  eexists. split; [reflexivity|]. cbn [trend].
  rewrite Hn, Heq, FlatFacts.sub_diag_not_gt. reflexivity.
Qed.

(** X4. [get_stock_data] never raises.  With [ticker] the resolved
    symbol, it returns the provider's history when that history has at
    least one bar, and the absent value when the history is empty or the
    lookup raises; the outcome of the company-name lookup made on the way
    plays no part. *)
Theorem get_stock_data_result (company_name : string) (days : nat) :
  exists ticker,
    search_ticker yf_info company_name = Ok ticker /\
    get_stock_data yf_info yf_history company_name days
    = Ok match yf_history ticker days with
         | Ok (b :: h) => Some (b :: h)
         | Ok [] => None
         | Raise _ => None
         end.
Proof.
  exists (AsStated.resolve yf_info (Str.strip company_name)).
  split; [apply search_ticker_resolve|].
  unfold get_stock_data, get_stock_ticker. rewrite search_ticker_resolve. cbn.
  destruct (yf_history _ days) as [[|b h]|e]; cbn; try reflexivity.
  destruct (yf_info _) as [i|e]; reflexivity.
Qed.

(** X5. [get_current_price] never raises.  It returns the rounded close
    of the last bar of the one-day history of the resolved symbol, and
    the absent value when that history is empty or the lookup raises. *)
Theorem get_current_price_result (company_name : string) :
  exists ticker,
    search_ticker yf_info company_name = Ok ticker /\
    get_current_price yf_info yf_history_1d round2 company_name
    = Ok match yf_history_1d ticker with
         | Ok data => (fun b => round2 (Close b)) <$> last data
         | Raise _ => None
         end.
Proof.
  exists (AsStated.resolve yf_info (Str.strip company_name)).
  split; [apply search_ticker_resolve|].
  unfold get_current_price, get_stock_ticker. rewrite search_ticker_resolve. cbn.
  destruct (yf_history_1d _) as [[|b h]|e]; cbn; try reflexivity.
  rewrite last_of_cons. reflexivity.
Qed.

(** X6. Whenever [get_stock_data] returns a history, the price change
    computed from it is present: the report of a request never has a
    history without its seven-day change. *)
Theorem stock_history_has_price_change (company_name : string) (days : nat)
    (h : list Bar) :
  get_stock_data yf_info yf_history company_name days = Ok (Some h) ->
  exists r, calculate_price_change round2 (Some h) = Some r.
Proof.
  unfold get_stock_data, get_stock_ticker.
  rewrite search_ticker_resolve. cbn.
  destruct (yf_history _ days) as [[|b rest]|e]; cbn; try discriminate.
  destruct (yf_info _) as [i|e]; cbn; intros H; injection H as <-; cbn; eauto.
Qed.

End HistoryProperties.

Lemma calculate_price_change_flat_witness :
  exists r, Stock.calculate_price_change Examples.no_rounding (Some [Examples.bar 103])
            = Some r /\ Stock.trend r = Stock.DOWN.
Proof.
  exact (calculate_price_change_flat Examples.no_rounding [Examples.bar 103]
           (Examples.bar 103) (Examples.bar 103) eq_refl eq_refl eq_refl).
Defined.

Lemma stock_history_has_price_change_witness :
  exists r, Stock.calculate_price_change Examples.no_rounding (Some Examples.week) = Some r.
Proof.
  exact (stock_history_has_price_change Examples.only_apple Examples.history
           Examples.no_rounding "AAPL" 7 Examples.week eq_refl).
Defined.

(** ** Letter case and surrounding whitespace in ticker resolution *)

Module CaseFacts.

Ltac by_cases c := destruct c as [[] [] [] [] [] [] [] []]; reflexivity.

Lemma is_space_upper (c : ascii) : Str.is_space (Str.upper_char c) = Str.is_space c.
Proof. by_cases c. Qed.

Lemma is_alpha_upper (c : ascii) : Str.is_alpha (Str.upper_char c) = Str.is_alpha c.
Proof. by_cases c. Qed.

Lemma lower_upper_char (c : ascii) : Str.lower_char (Str.upper_char c) = Str.lower_char c.
Proof. by_cases c. Qed.

Lemma eqb_dot_upper (c : ascii) : Ascii.eqb (Str.upper_char c) "." = Ascii.eqb c ".".
Proof. by_cases c. Qed.

Lemma eqb_dash_upper (c : ascii) : Ascii.eqb (Str.upper_char c) "-" = Ascii.eqb c "-".
Proof. by_cases c. Qed.

Lemma length_upper (s : string) : String.length (Str.upper s) = String.length s.
Proof. induction s as [|c s IH]; cbn; [reflexivity|]. now rewrite <- IH. Qed.

Lemma lower_upper (s : string) : Str.lower (Str.upper s) = Str.lower s.
Proof.
  unfold Str.lower, Str.upper. induction s as [|c s IH]; cbn; [reflexivity|].
  now rewrite lower_upper_char, IH.
Qed.

Lemma all_alpha_upper (s : string) :
  Str.all_chars Str.is_alpha (Str.upper s) = Str.all_chars Str.is_alpha s.
Proof.
  unfold Str.upper. induction s as [|c s IH]; cbn; [reflexivity|].
  now rewrite is_alpha_upper, IH.
Qed.

Lemma isalpha_upper (s : string) : Str.isalpha (Str.upper s) = Str.isalpha s.
Proof.
  destruct s as [|c s]; [reflexivity|].
  change (Str.all_chars Str.is_alpha (Str.upper (String c s))
          = Str.all_chars Str.is_alpha (String c s)).
  apply all_alpha_upper.
Qed.

Lemma lstrip_upper (s : string) : Str.lstrip (Str.upper s) = Str.upper (Str.lstrip s).
Proof.
  unfold Str.upper. induction s as [|c s IH]; cbn; [reflexivity|].
  rewrite is_space_upper. destruct (Str.is_space c); [exact IH|reflexivity].
Qed.

Lemma rstrip_upper (s : string) : Str.rstrip (Str.upper s) = Str.upper (Str.rstrip s).
Proof.
  unfold Str.upper. induction s as [|c s IH]; cbn; [reflexivity|].
  rewrite IH, is_space_upper.
  destruct (Str.rstrip s); cbn; [destruct (Str.is_space c)|]; reflexivity.
Qed.

Lemma strip_upper (s : string) : Str.strip (Str.upper s) = Str.upper (Str.strip s).
Proof. unfold Str.strip. now rewrite lstrip_upper, rstrip_upper. Qed.

(** Removing dots and dashes commutes with the upper-case form. *)
Lemma remove_dot_upper (s : string) :
  Str.replace "." "" (Str.upper s) = Str.upper (Str.replace "." "" s).
Proof.
  unfold Str.upper. induction s as [|c s IH]; cbn; [reflexivity|].
  rewrite eqb_dot_upper. destruct (Ascii.eqb c "."); cbn; now rewrite IH.
Qed.

Lemma remove_dash_upper (s : string) :
  Str.replace "-" "" (Str.upper s) = Str.upper (Str.replace "-" "" s).
Proof.
  unfold Str.upper. induction s as [|c s IH]; cbn; [reflexivity|].
  rewrite eqb_dash_upper. destruct (Ascii.eqb c "-"); cbn; now rewrite IH.
Qed.

End CaseFacts.

Section ResolutionInputs.

Import Stock.

Variable yf_info : string -> Exc (option (gmap string pyval)).

Lemma validate_ticker_upper (symbol : string) :
  validate_ticker yf_info (Str.upper symbol) = validate_ticker yf_info symbol.
Proof. unfold validate_ticker. rewrite StrFacts.upper_idem. reflexivity. Qed.

Lemma resolve_of_upper (q : string) :
  AsStated.resolve yf_info (Str.upper q) = AsStated.resolve yf_info q.
Proof.
  unfold AsStated.resolve, AsStated.looks_like_ticker, AsStated.common_name_match,
    AsStated.first_valid_variant, AsStated.four_variants, AsStated.validates.
  rewrite validate_ticker_upper, CaseFacts.length_upper, CaseFacts.remove_dot_upper,
    CaseFacts.remove_dash_upper, CaseFacts.isalpha_upper, CaseFacts.lower_upper,
    StrFacts.upper_idem.
  reflexivity.
Qed.

(** X7. The resolved ticker depends on the query only through its
    stripped, upper-case form: two queries that differ in letter case and
    in leading or trailing whitespace resolve to the same ticker. *)
Theorem search_ticker_ignores_case_and_padding (q1 q2 : string) :
  Str.upper (Str.strip q1) = Str.upper (Str.strip q2) ->
  search_ticker yf_info q1 = search_ticker yf_info q2.
Proof.
  intros H. rewrite !search_ticker_resolve.
  rewrite <- (resolve_of_upper (Str.strip q1)), <- (resolve_of_upper (Str.strip q2)), H.
  reflexivity.
Qed.

(** X8. When every lookup at the provider raises, the resolution still
    returns: the ticker of the table of common names when the stripped
    query is one of the names, whatever its letter case, and the
    upper-case stripped query otherwise. *)
Theorem search_ticker_provider_down (query : string) :
  (forall symbol, exists e, yf_info symbol = Raise e) ->
  search_ticker yf_info query
  = Ok match lookup_common (Str.strip query) common_names with
       | Some t => t
       | None => Str.upper (Str.strip query)
       end.
Proof.
  intros Hdown. rewrite search_ticker_resolve, lookup_common_find.
  assert (Hv : forall s, AsStated.validates yf_info s = false).
  { intros s. unfold AsStated.validates, validate_ticker.
    destruct (Hdown (Str.upper s)) as [e ->]. reflexivity. }
  unfold AsStated.resolve. rewrite Hv, andb_false_r.
  fold (AsStated.common_name_match (Str.strip query)).
  destruct (AsStated.common_name_match (Str.strip query)); [reflexivity|].
  unfold AsStated.first_valid_variant, AsStated.four_variants. cbn [List.find].
  rewrite !Hv, !andb_false_r. reflexivity.
Qed.

End ResolutionInputs.

Lemma search_ticker_ignores_case_and_padding_witness :
  Stock.search_ticker Examples.only_apple "  aapl " = Stock.search_ticker Examples.only_apple "AAPL".
Proof.
  exact (search_ticker_ignores_case_and_padding Examples.only_apple "  aapl " "AAPL" eq_refl).
Defined.

Lemma search_ticker_provider_down_witness :
  Stock.search_ticker Examples.offline "Facebook" = Ok "META"%string.
Proof.
  refine (search_ticker_provider_down Examples.offline "Facebook" _).
  intros symbol. eexists. reflexivity.
Defined.

(** ** The company profile *)

Section ProfileProperties.

Import StockInfo.

Variable yf_info : string -> Exc (option (gmap string pyval)).

Lemma length_substring_le (n : nat) (s : string) :
  String.length (substring 0 n s) <= n.
Proof.
  revert s. induction n as [|n IH]; intros [|c s]; cbn; try lia.
  specialize (IH s). lia.
Qed.

Lemma length_append (s1 s2 : string) :
  String.length (s1 ++ s2) = String.length s1 + String.length s2.
Proof.
  induction s1 as [|c s1 IH]; [reflexivity|].
  change (String c s1 ++ s2)%string with (String c (s1 ++ s2)).
  cbn [String.length]. rewrite IH. reflexivity.
Qed.

Lemma summary_length (v : pyval) (d : string) :
  summary v = Ok d -> String.length d <= 203.
Proof.
  destruct v as [|s|z]; cbn; try discriminate.
  intros H. injection H as <-. rewrite length_append.
  pose proof (length_substring_le 200 s). cbn [String.length]. lia.
Qed.

(** X9. [get_stock_info] never raises.  A profile it returns carries the
    resolved ticker, which is in upper case, and a description of at most
    203 characters; and it returns the absent value when the provider's
    lookup raises, when the info is [None] and when the business summary
    is present but is not a string. *)
Theorem get_stock_info_result (company_name : string) :
  exists ticker r,
    Stock.search_ticker yf_info company_name = Ok ticker /\
    get_stock_info yf_info company_name = Ok r /\
    (forall p, r = Some p ->
       StockInfo.ticker p = ticker /\ Str.upper (StockInfo.ticker p) = StockInfo.ticker p /\
       String.length (description p) <= 203) /\
    ((exists e, yf_info ticker = Raise e) -> r = None) /\
    (yf_info ticker = Ok None -> r = None) /\
    (forall d v, yf_info ticker = Ok (Some d) -> d !! "longBusinessSummary" = Some v ->
       Report.sliceable v = false -> r = None).
Proof.
  exists (AsStated.resolve yf_info (Str.strip company_name)).
  unfold get_stock_info, Stock.get_stock_ticker. rewrite search_ticker_resolve. cbn.
  set (ticker := AsStated.resolve yf_info (Str.strip company_name)).
  destruct (yf_info ticker) as [[d|]|e]; cbn.
  - destruct (summary _) as [text|e] eqn:Hsum; cbn.
    + eexists. split; [reflexivity|]. split; [reflexivity|].
      split; [|split; [|split]].
      * intros p Hp. injection Hp as <-. cbn.
        split; [reflexivity|]. split; [apply resolve_upper|].
        exact (summary_length _ _ Hsum).
      * intros [e He]. discriminate.
      * discriminate.
      * intros d' v Hd Hv Hs. injection Hd as <-.
        unfold Sentiment.dict_get in Hsum. rewrite Hv in Hsum.
        destruct v; cbn in *; discriminate.
    + eexists. split; [reflexivity|]. split; [reflexivity|].
      split; [discriminate|]. repeat split; reflexivity.
  - eexists. split; [reflexivity|]. split; [reflexivity|].
    split; [discriminate|]. repeat split; reflexivity.
  - eexists. split; [reflexivity|]. split; [reflexivity|].
    split; [discriminate|]. repeat split; reflexivity.
Qed.

End ProfileProperties.

Lemma get_stock_info_result_witness :
  StockInfo.get_stock_info Examples.offline "Tesla" = Ok None.
Proof.
  destruct (get_stock_info_result Examples.offline "Tesla")
    as (ticker & r & Ht & Hr & _ & Hdown & _).
  rewrite Hr. f_equal. apply Hdown. eexists. reflexivity.
Defined.

(** ** The counters and the report *)

Section ReportProperties.

Import Sentiment Main.

Lemma succeeds_emit (e : Event) : Report.succeeds (emit e).
Proof. intros st. exists tt. reflexivity. Qed.

Lemma succeeds_ret {A} (a : A) : Report.succeeds (mret a : M A).
Proof. intros st. exists a. reflexivity. Qed.

Lemma succeeds_bind {A B} (m : M A) (k : A -> M B) :
  Report.succeeds m -> (forall a, Report.succeeds (k a)) -> Report.succeeds (m ≫= k).
Proof.
  intros Hm Hk st. unfold mbind, M_bind.
  destruct (Hm st) as [a Ha]. destruct (m st) as [[a'|e] st1]; cbn in Ha; [|discriminate].
  apply Hk.
Qed.

Lemma succeeds_for_each {A} (xs : list A) (body : A -> M unit) :
  (forall x, Report.succeeds (body x)) -> Report.succeeds (for_each xs body).
Proof.
  intros Hb. induction xs as [|x xs IH]; cbn [for_each].
  - apply succeeds_ret.
  - apply succeeds_bind; [apply Hb|intros _; exact IH].
Qed.

Ltac printing :=
  unfold print, print_line;
  repeat first
    [ apply succeeds_emit | apply succeeds_ret
    | apply succeeds_for_each; intros ?
    | apply succeeds_bind; [|intros ?]
    | match goal with
      | |- Report.succeeds (match ?x with _ => _ end) => destruct x
      end ].

(** A step that returns does not change the outcome of what follows it. *)
Lemma outcome_after {A B} (m : M A) (k : A -> M B) (r : Exc B) :
  Report.succeeds m -> (forall a st, (k a st).1 = r) ->
  forall st, ((m ≫= k) st).1 = r.
Proof.
  intros Hm Hk st. unfold mbind, M_bind.
  destruct (Hm st) as [a Ha]. destruct (m st) as [[a'|e] st1]; cbn in Ha; [|discriminate].
  apply Hk.
Qed.

Lemma print_headline_outcome (i : nat) (item : ArticleSentiment) (st : State) :
  (print_headline i item st).1
  = if Report.printable item then Ok tt else Raise TypeError.
Proof.
  unfold print_headline, Report.printable.
  destruct (as_title item) as [|t|z]; cbn; try reflexivity.
  destruct (sentiment item); reflexivity.
Qed.

Lemma print_headlines_then {B} (items : list ArticleSentiment) (k : unit -> M B)
    (r : Exc B) :
  (forall a st, (k a st).1 = r) ->
  forall i st,
    ((print_headlines i items ≫= k) st).1
    = if forallb Report.printable items then r else Raise TypeError.
Proof.
  intros Hk. induction items as [|item items IH]; intros i st.
  - cbn. apply Hk.
  - cbn [print_headlines forallb]. unfold mbind at 1, M_bind at 1.
    unfold mbind at 1, M_bind at 1.
    pose proof (print_headline_outcome i item st) as H1.
    destruct (print_headline i item st) as [[[]|e] st1]; cbn [fst] in H1.
    + destruct (Report.printable item); [|discriminate]. cbn [andb].
      exact (IH (S i) st1).
    + destruct (Report.printable item); [discriminate|]. cbn [andb].
      injection H1 as ->. reflexivity.
Qed.

(** The report ends normally exactly when every headline can be
    printed. *)
Lemma display_results_ends (company_name : string)
    (items : list ArticleSentiment) (pos_count neg_count neu_count : nat)
    (avg_sentiment : float) (current_price : option float)
    (price_changes : option Stock.PriceChange) (st : State) :
  (display_results company_name items pos_count neg_count neu_count
     avg_sentiment current_price price_changes st).1
  = if forallb Report.printable items then Ok tt else Raise TypeError.
Proof.
  revert st. unfold display_results.
  repeat (apply outcome_after; [solve [printing]|intros ?]).
  apply print_headlines_then. intros ?.
  repeat (apply outcome_after; [solve [printing]|intros ?]).
  intros st. reflexivity.
Qed.

End ReportProperties.

Section RequestProperties.

Import Sentiment Main.

Variable textblob_polarity : string -> float.
Variable polarity_scores : string -> VaderScores.
Variable api_key week_ago today : string.
Variable requests_get : string -> News.Parameters -> Exc News.Response.
Variable yf_info : string -> Exc (option (gmap string pyval)).
Variable yf_history : string -> nat -> Exc (list Stock.Bar).
Variable yf_history_1d : string -> Exc (list Stock.Bar).
Variable round2 : float -> float.
Variable fsum : list float -> float.
Variable now : string.

Local Abbreviation analyze := (analyze_article textblob_polarity polarity_scores).
Local Abbreviation news :=
  (News.get_news_for_company api_key week_ago today requests_get).
Local Abbreviation run :=
  (analyze_company textblob_polarity polarity_scores api_key week_ago today
     requests_get yf_info yf_history yf_history_1d round2 fsum now).

Lemma printable_analyzed (a : Article) :
  Report.printable (analyze a) = Report.titled a.
Proof.
  unfold Report.printable. rewrite analyze_article_sentiment.
  unfold analyze_article, Report.titled, field_get; cbn [as_title].
  destruct (title a) as [v|]; [|reflexivity]. apply andb_true_r.
Qed.

Lemma forallb_printable_analyzed (l : list Article) :
  forallb Report.printable (map analyze l) = forallb Report.titled l.
Proof.
  induction l as [|a l IH]; [reflexivity|].
  cbn [map forallb]. rewrite printable_analyzed, IH. reflexivity.
Qed.

(** X11. A request that finds articles ends normally exactly when each
    of the first five articles has a title that is a string or has no
    title at all; if one of them has a title that is not a string (a JSON
    null), the request ends with a type error while printing the
    headlines. *)
Theorem analyze_company_outcome (company_name : string) (articles : list Article)
    (st : State) :
  news company_name = Ok articles -> articles <> [] ->
  (run company_name st).1
  = if forallb Report.titled (firstn 5 articles) then Ok tt else Raise TypeError.
Proof.
  intros H Hne.
  destruct (score_loop_first_ten textblob_polarity polarity_scores fsum articles
              {| search_history :=
                   search_history st ++ [{| company := company_name; timestamp := now |}];
                 effects :=
                   effects st ++ opening now company_name
                   ++ [Stdout (Text (Str.nl ++ "STEP 2: Analyzing sentiment of "
                                     ++ Str.of_nat (List.length articles)
                                     ++ " articles"))] |} Hne)
    as (t & Hloop & Hs & _ & _ & _ & _ & _ & Havg).
  destruct (analyze_company_report textblob_polarity polarity_scores api_key week_ago
              today requests_get yf_info yf_history yf_history_1d round2 fsum now
              company_name articles st t _ H Hne Hloop Havg)
    as (price & changes & Hrun).
  rewrite Hrun, display_results_ends, Hs.
  rewrite firstn_map, forallb_printable_analyzed, firstn_firstn.
  reflexivity.
Qed.

Lemma label_positive (c : float) :
  String.eqb (_get_sentiment_label c) "POSITIVE" = F.ge c 0.05.
Proof.
  unfold _get_sentiment_label.
  destruct (F.ge c 0.05); [reflexivity|]. destruct (F.le c (-0.05)); reflexivity.
Qed.

Lemma label_negative (c : float) :
  String.eqb (_get_sentiment_label c) "NEGATIVE" = F.le c (-0.05).
Proof.
  unfold _get_sentiment_label.
  destruct (F.le c (-0.05)) eqn:E.
  - rewrite (FloatFacts.le_neg_threshold_not_ge c E). reflexivity.
  - destruct (F.ge c 0.05); reflexivity.
Qed.

Lemma label_neutral (c : float) :
  String.eqb (_get_sentiment_label c) "NEUTRAL"
  = negb (F.ge c 0.05) && negb (F.le c (-0.05)).
Proof.
  unfold _get_sentiment_label.
  destruct (F.ge c 0.05); [reflexivity|]. destruct (F.le c (-0.05)); reflexivity.
Qed.

(** X12. The scoring loop never raises, and its counters follow the
    thresholds on the compound score: an article is counted as positive
    exactly when its score is at least 0.05, as negative exactly when its
    score is at most -0.05, and as neutral in every other case. *)
Theorem score_loop_counts_by_threshold (l : list Article) (st : State) :
  let score := AsStated.compound_of polarity_scores in
  exists t st',
    score_loop textblob_polarity polarity_scores l empty_tally st = (Ok t, st') /\
    positive_count t = List.length (List.filter (fun a => F.ge (score a) 0.05) l) /\
    negative_count t = List.length (List.filter (fun a => F.le (score a) (-0.05)) l) /\
    neutral_count t
    = List.length (List.filter
                     (fun a => negb (F.ge (score a) 0.05) && negb (F.le (score a) (-0.05)))
                     l).
Proof.
  intros score.
  destruct (score_loop_from textblob_polarity polarity_scores l empty_tally st)
    as (t & H & _ & Hp & Hn & Hu & _).
  exists t. eexists. split; [exact H|].
  cbn [empty_tally positive_count negative_count neutral_count] in Hp, Hn, Hu.
  rewrite Hp, Hn, Hu. unfold AsStated.count_label, AsStated.label_of.
  repeat split; cbn [Nat.add]; f_equal; apply filter_ext; intros a.
  - apply label_positive.
  - apply label_negative.
  - apply label_neutral.
Qed.

End RequestProperties.

Lemma analyze_company_outcome_witness :
  (Examples.request Examples.three_found "Apple" Examples.fresh).1 = Ok tt.
Proof.
  exact (analyze_company_outcome
           Examples.textblob_polarity Examples.polarity_scores
           "key" "2024-01-01" "2024-01-08" Examples.three_found
           Examples.only_apple Examples.history Examples.history_1d
           Examples.no_rounding Examples.running_sum "2024-01-08 09:30:00"
           "Apple" Examples.three_articles Examples.fresh eq_refl
           ltac:(discriminate)).
Defined.

(** ** The menu loop *)

Section SessionProperties.

Import Main Menu.

Variable textblob_polarity : string -> float.
Variable polarity_scores : string -> Sentiment.VaderScores.
Variable api_key week_ago today : string.
Variable requests_get : string -> News.Parameters -> Exc News.Response.
Variable yf_info : string -> Exc (option (gmap string pyval)).
Variable yf_history : string -> nat -> Exc (list Stock.Bar).
Variable yf_history_1d : string -> Exc (list Stock.Bar).
Variable round2 : float -> float.
Variable fsum : list float -> float.
Variable clock : nat -> string.

Local Abbreviation news :=
  (News.get_news_for_company api_key week_ago today requests_get).
Local Abbreviation request :=
  (Menu.request textblob_polarity polarity_scores api_key week_ago today
     requests_get yf_info yf_history yf_history_1d round2 fsum clock).
Local Abbreviation batch :=
  (analyze_batch textblob_polarity polarity_scores api_key week_ago today
     requests_get yf_info yf_history yf_history_1d round2 fsum clock).
Local Abbreviation loop :=
  (main_loop textblob_polarity polarity_scores api_key week_ago today
     requests_get yf_info yf_history yf_history_1d round2 fsum clock).

(** One request adds one entry, whatever its outcome. *)
Lemma request_appends (company_name : string) (st : State) :
  search_history (request company_name st).2
  = (search_history st
     ++ [{| company := company_name;
            timestamp := clock (List.length (effects st)) |}])%list.
Proof.
  unfold Menu.request. set (now := clock (List.length (effects st))).
  destruct (news company_name) as [[|a rest]|e] eqn:H.
  - rewrite (analyze_company_empty _ _ _ _ _ _ _ _ _ _ _ now company_name st H).
    reflexivity.
  - assert (Hne : a :: rest <> []) by discriminate.
    destruct (score_loop_first_ten textblob_polarity polarity_scores fsum (a :: rest)
                {| search_history :=
                     search_history st ++ [{| company := company_name; timestamp := now |}];
                   effects :=
                     effects st ++ opening now company_name
                     ++ [Stdout (Text (Str.nl ++ "STEP 2: Analyzing sentiment of "
                                       ++ Str.of_nat (List.length (a :: rest))
                                       ++ " articles"))] |} Hne)
      as (t & Hloop & _ & _ & _ & _ & _ & _ & Havg).
    destruct (analyze_company_report textblob_polarity polarity_scores api_key week_ago
                today requests_get yf_info yf_history yf_history_1d round2 fsum now
                company_name (a :: rest) st t _ H Hne Hloop Havg)
      as (price & changes & Hrun).
    rewrite Hrun.
    match goal with
    | |- context [display_results ?c ?s ?p ?n ?u ?avg ?cp ?pc ?s0] =>
        destruct (only_logs_display_results c s p n u avg cp pc s0) as [Hh _]
    end.
    rewrite Hh. reflexivity.
  - rewrite (analyze_company_failed _ _ _ _ _ _ _ _ _ _ _ now company_name st e H).
    reflexivity.
Qed.

Lemma appends_only_logs {A} (m : M A) : only_logs m -> Report.appends_only m.
Proof.
  intros H st. destruct (H st) as [Hh _]. exists []. rewrite Hh, app_nil_r. reflexivity.
Qed.

Lemma appends_bind {A B} (m : M A) (k : A -> M B) :
  Report.appends_only m -> (forall a, Report.appends_only (k a)) ->
  Report.appends_only (m ≫= k).
Proof.
  intros Hm Hk st. unfold mbind, M_bind.
  destruct (Hm st) as [added Ha].
  destruct (m st) as [[a|e] st1]; cbn [snd] in *.
  - destruct (Hk a st1) as [added' Ha']. exists (added ++ added')%list.
    rewrite Ha', Ha, app_assoc. reflexivity.
  - exists added. exact Ha.
Qed.

Lemma appends_request (company_name : string) : Report.appends_only (request company_name).
Proof. intros st. eexists. apply request_appends. Qed.

Lemma only_logs_history : only_logs history.
Proof. intros st. split; [reflexivity|]. exists []. cbn. now rewrite app_nil_r. Qed.

Lemma only_logs_print_searches (searches : list SearchHistoryEntry) (i : nat) :
  only_logs (print_searches i searches).
Proof.
  revert i. induction searches as [|s searches IH]; intros i; cbn [print_searches].
  - apply only_logs_ret.
  - apply only_logs_bind; [apply only_logs_emit|intros _; apply IH].
Qed.

Ltac quiet :=
  unfold print, print_line;
  repeat first
    [ apply only_logs_ret | apply only_logs_raise | apply only_logs_emit
    | apply only_logs_bind; [|intros ?] ].

Lemma only_logs_show_menu : only_logs show_menu.
Proof. unfold show_menu. quiet. Qed.

Lemma only_logs_explain_tickers : only_logs explain_tickers.
Proof. unfold explain_tickers. quiet. Qed.

Lemma only_logs_show_quick_picks : only_logs show_quick_picks.
Proof. unfold show_quick_picks. quiet. Qed.

Lemma only_logs_explain_batch : only_logs explain_batch.
Proof. unfold explain_batch. quiet. Qed.

Lemma only_logs_press_enter : only_logs press_enter.
Proof. unfold press_enter. quiet. Qed.

Lemma only_logs_view_history : only_logs view_history.
Proof.
  unfold view_history.
  apply only_logs_bind; [quiet|intros _].
  apply only_logs_bind; [quiet|intros _].
  apply only_logs_bind; [apply only_logs_history|intros searches].
  apply only_logs_bind; [|intros _; quiet].
  destruct searches; [quiet|apply only_logs_print_searches].
Qed.

Lemma appends_print (s : string) : Report.appends_only (print s).
Proof. apply appends_only_logs. quiet. Qed.

Lemma appends_batch (companies : list string) : Report.appends_only (batch companies).
Proof.
  induction companies as [|c companies IH]; cbn [analyze_batch].
  - apply appends_only_logs, only_logs_ret.
  - apply appends_bind; [apply appends_print|intros _].
    apply appends_bind; [apply appends_request|intros _].
    apply appends_bind; [apply appends_print|intros _].
    exact IH.
Qed.

Lemma appends_analyze_one (line : string) :
  Report.appends_only
    (analyze_one textblob_polarity polarity_scores api_key week_ago today
       requests_get yf_info yf_history yf_history_1d round2 fsum clock line).
Proof.
  unfold analyze_one. cbv zeta. destruct (Sentiment.is_empty _).
  - apply appends_print.
  - apply appends_bind; [apply appends_print|intros _; apply appends_request].
Qed.

Lemma appends_analyze_quick (line : string) :
  Report.appends_only
    (analyze_quick textblob_polarity polarity_scores api_key week_ago today
       requests_get yf_info yf_history yf_history_1d round2 fsum clock line).
Proof.
  unfold analyze_quick. cbv zeta. destruct (pick _ quick_picks).
  - apply appends_request.
  - apply appends_print.
Qed.

Lemma appends_analyze_many (line : string) :
  Report.appends_only
    (analyze_many textblob_polarity polarity_scores api_key week_ago today
       requests_get yf_info yf_history yf_history_1d round2 fsum clock line).
Proof.
  unfold analyze_many. cbv zeta. destruct (Sentiment.is_empty _).
  - apply appends_only_logs, only_logs_ret.
  - apply appends_bind; [apply appends_print|intros _; apply appends_batch].
Qed.

(** The end of a round: the pause, then the next round on what is left
    of the input. *)
Lemma appends_next_round (m : M unit) (stdin : list string) :
  Report.appends_only m ->
  (forall l, List.length l < List.length stdin -> Report.appends_only (loop l)) ->
  Report.appends_only
    (m;; press_enter;;
     match stdin with
     | [] => raise EOFError
     | _ :: rest => loop rest
     end).
Proof.
  intros Hm IH.
  apply appends_bind; [exact Hm|intros _].
  apply appends_bind; [apply appends_only_logs, only_logs_press_enter|intros _].
  destruct stdin as [|l rest].
  - apply appends_only_logs, only_logs_raise.
  - apply IH. cbn. lia.
Qed.

Lemma appends_prompted (prompt : M unit) (stdin : list string) (f : string -> M unit) :
  only_logs prompt -> (forall line, Report.appends_only (f line)) ->
  (forall l, List.length l < List.length stdin -> Report.appends_only (loop l)) ->
  Report.appends_only
    (prompt;;
     match stdin with
     | [] => raise EOFError
     | line1 :: stdin2 =>
         f line1;; press_enter;;
         match stdin2 with
         | [] => raise EOFError
         | _ :: rest => loop rest
         end
     end).
Proof.
  intros Hp Hf IH.
  apply appends_bind; [apply appends_only_logs, Hp|intros _].
  destruct stdin as [|line1 stdin2].
  - apply appends_only_logs, only_logs_raise.
  - apply appends_next_round; [apply Hf|].
    intros l Hl. apply IH. cbn. lia.
Qed.

Lemma appends_loop (n : nat) (stdin : list string) :
  List.length stdin <= n -> Report.appends_only (loop stdin).
Proof.
  revert stdin. induction n as [|n IH]; intros stdin Hlen.
  - destruct stdin; [|cbn in Hlen; lia]. cbn [main_loop].
    apply appends_bind; [apply appends_only_logs, only_logs_show_menu|intros _].
    apply appends_only_logs, only_logs_raise.
  - destruct stdin as [|line stdin1]; cbn [main_loop].
    + apply appends_bind; [apply appends_only_logs, only_logs_show_menu|intros _].
      apply appends_only_logs, only_logs_raise.
    + assert (H1 : forall l, List.length l < List.length stdin1 ->
                             Report.appends_only (loop l)).
      { intros l Hl. apply IH. cbn in Hlen. lia. }
      apply appends_bind; [apply appends_only_logs, only_logs_show_menu|intros _].
      cbv zeta.
      destruct (String.eqb (Str.strip line) "0"); [apply appends_print|].
      destruct (String.eqb (Str.strip line) "1").
      { apply appends_prompted;
          [apply only_logs_explain_tickers|apply appends_analyze_one|exact H1]. }
      destruct (String.eqb (Str.strip line) "2").
      { apply appends_prompted;
          [apply only_logs_show_quick_picks|apply appends_analyze_quick|exact H1]. }
      destruct (String.eqb (Str.strip line) "3").
      { apply appends_prompted;
          [apply only_logs_explain_batch|apply appends_analyze_many|exact H1]. }
      apply appends_next_round; [|exact H1].
      destruct (String.eqb (Str.strip line) "4");
        [apply appends_only_logs, only_logs_view_history|apply appends_print].
Qed.

Lemma batch_cons (c : string) (companies : list string) (st : State) :
  batch (c :: companies) st
  = match request c {| search_history := search_history st;
                       effects := effects st
                                  ++ [Stdout (Text (Str.nl ++ Str.times "=" 60))] |} with
    | (Ok _, st1) =>
        batch companies
          {| search_history := search_history st1;
             effects := effects st1
                        ++ [Stdout (Text (Str.nl ++ "Pausing before next company"))] |}
    | (Raise e, st1) => (Raise e, st1)
    end.
Proof.
  cbn [analyze_batch]. unfold mbind, M_bind, print, emit.
  destruct (request c _) as [[[]|e] st1]; reflexivity.
Qed.

(** X13. The loop of the batch choice takes the companies in the order
    given: the entries it adds to the history are those of a prefix of the
    list, in order, and of the whole list when the loop ends normally. *)
Theorem analyze_batch_in_order (companies : list string) (st : State) :
  exists added,
    search_history (batch companies st).2 = (search_history st ++ added)%list /\
    (exists k, map company added = firstn k companies) /\
    ((batch companies st).1 = Ok tt -> map company added = companies).
Proof.
  revert st. induction companies as [|c companies IH]; intros st.
  - exists []. cbn. rewrite app_nil_r. repeat split. exists 0. reflexivity.
  - rewrite batch_cons.
    match goal with
    | |- context [request c ?s] => set (st0 := s)
    end.
    pose proof (request_appends c st0) as Hreq.
    destruct (request c st0) as [[[]|e] st1]; cbn [snd] in Hreq.
    + match goal with
      | |- context [batch companies ?s] => destruct (IH s) as (added & Ha & [k Hk] & Hok)
      end.
      cbn [search_history] in Ha.
      exists ({| company := c; timestamp := clock (List.length (effects st0)) |} :: added).
      split; [|split].
      * rewrite Ha, Hreq. cbn [search_history st0]. rewrite <- app_assoc. reflexivity.
      * exists (S k). cbn [firstn map company]. now rewrite Hk.
      * intros Hr. cbn [map company]. now rewrite (Hok Hr).
    + exists [{| company := c; timestamp := clock (List.length (effects st0)) |}].
      cbn [snd fst]. rewrite Hreq. split; [reflexivity|]. split.
      * exists 1. reflexivity.
      * discriminate.
Qed.

(** X14. Whatever is typed, the menu loop only adds to the history:
    the entries present before are kept, in their place. *)
Theorem main_loop_appends_only (stdin : list string) (st : State) :
  exists added, search_history (loop stdin st).2 = (search_history st ++ added)%list.
Proof. exact (appends_loop (List.length stdin) stdin (Nat.le_refl _) st). Qed.

Lemma bind_returns {A B} (m : M A) (k : A -> M B) (st : State) (b : B) :
  ((m ≫= k) st).1 = Ok b -> exists a st1, (k a st1).1 = Ok b.
Proof.
  unfold mbind, M_bind. destruct (m st) as [[a|e] st1]; [eauto|discriminate].
Qed.

Lemma next_round_returns (m : M unit) (stdin : list string) (st : State) :
  ((m;; press_enter;;
    match stdin with
    | [] => raise EOFError
    | _ :: rest => loop rest
    end) st).1 = Ok tt ->
  exists x rest st1, stdin = x :: rest /\ (loop rest st1).1 = Ok tt.
Proof.
  intros H.
  apply bind_returns in H. destruct H as (_ & st1 & H).
  apply bind_returns in H. destruct H as (_ & st2 & H).
  destruct stdin as [|x rest]; [discriminate|]. eauto.
Qed.

Lemma prompted_returns (prompt : M unit) (stdin : list string) (f : string -> M unit)
    (st : State) :
  ((prompt;;
    match stdin with
    | [] => raise EOFError
    | line1 :: stdin2 =>
        f line1;; press_enter;;
        match stdin2 with
        | [] => raise EOFError
        | _ :: rest => loop rest
        end
    end) st).1 = Ok tt ->
  exists x y rest st1, stdin = x :: y :: rest /\ (loop rest st1).1 = Ok tt.
Proof.
  intros H.
  apply bind_returns in H. destruct H as (_ & st1 & H).
  destruct stdin as [|x stdin2]; [discriminate|].
  apply next_round_returns in H. destruct H as (y & rest & st2 & -> & H). eauto 6.
Qed.

Lemma loop_returns_after_exit (n : nat) (stdin : list string) (st : State) :
  List.length stdin <= n ->
  (loop stdin st).1 = Ok tt ->
  exists line, In line stdin /\ Str.strip line = "0"%string.
Proof.
  revert stdin st. induction n as [|n IH]; intros stdin st Hlen H.
  - destruct stdin; [|cbn in Hlen; lia]. cbn [main_loop] in H.
    apply bind_returns in H. destruct H as (_ & st1 & H). discriminate.
  - destruct stdin as [|line stdin1]; cbn [main_loop] in H;
      apply bind_returns in H; destruct H as (_ & st1 & H); [discriminate|].
    cbv zeta in H. cbn [List.length] in Hlen.
    destruct (String.eqb (Str.strip line) "0") eqn:E0.
    { exists line. split; [now left|]. now apply String.eqb_eq. }
    assert (Hin : forall rest st2,
               List.length rest <= n -> (loop rest st2).1 = Ok tt ->
               (forall x, In x rest -> In x (line :: stdin1)) ->
               exists l, In l (line :: stdin1) /\ Str.strip l = "0"%string).
    { intros rest st2 Hl Hr Hsub. destruct (IH rest st2 Hl Hr) as (l & Hl1 & Hl2).
      exists l. split; [apply Hsub, Hl1|exact Hl2]. }
    destruct (String.eqb (Str.strip line) "1").
    { apply prompted_returns in H. destruct H as (x & y & rest & st2 & -> & H).
      apply (Hin rest st2); [cbn in Hlen; lia|exact H|]. intros z Hz. cbn. auto. }
    destruct (String.eqb (Str.strip line) "2").
    { apply prompted_returns in H. destruct H as (x & y & rest & st2 & -> & H).
      apply (Hin rest st2); [cbn in Hlen; lia|exact H|]. intros z Hz. cbn. auto. }
    destruct (String.eqb (Str.strip line) "3").
    { apply prompted_returns in H. destruct H as (x & y & rest & st2 & -> & H).
      apply (Hin rest st2); [cbn in Hlen; lia|exact H|]. intros z Hz. cbn. auto. }
    apply next_round_returns in H. destruct H as (x & rest & st2 & -> & H).
    apply (Hin rest st2); [cbn in Hlen; lia|exact H|]. intros z Hz. cbn. auto.
Qed.

(** X2. The menu loop returns only through the exit choice.  A first
    line that is 0, with or without surrounding whitespace, ends the loop
    at once and leaves the history as it is; and a loop that returns has
    read such a line.  In every other case the loop goes on until the
    input is exhausted, where [input] raises, or until a request
    raises. *)
Theorem main_loop_returns_on_exit_only (stdin : list string) (st : State) :
  (forall line rest,
     Str.strip line = "0"%string ->
     (loop (line :: rest) st).1 = Ok tt /\
     search_history (loop (line :: rest) st).2 = search_history st) /\
  ((loop stdin st).1 = Ok tt ->
   exists line, In line stdin /\ Str.strip line = "0"%string).
Proof.
  split.
  - intros line rest H. cbn [main_loop]. cbv zeta. rewrite H. split; reflexivity.
  - apply (loop_returns_after_exit (List.length stdin)). apply Nat.le_refl.
Qed.

End SessionProperties.

Lemma analyze_batch_in_order_witness :
  exists added,
    Main.search_history (SessionExamples.batch ["Apple"; "Tesla"] Examples.fresh).2 = added /\
    map Main.company added = ["Apple"; "Tesla"]%string.
Proof.
  destruct (analyze_batch_in_order
              Examples.textblob_polarity Examples.polarity_scores
              "key" "2024-01-01" "2024-01-08" Examples.not_found
              Examples.only_apple Examples.history Examples.history_1d
              Examples.no_rounding Examples.running_sum SessionExamples.clock
              ["Apple"; "Tesla"]%string Examples.fresh)
    as (added & Ha & _ & Hok).
  exists added. split; [exact Ha|]. apply Hok. reflexivity.
Defined.

Lemma main_loop_returns_on_exit_only_witness :
  (SessionExamples.loop [" 0 "; "1"]%string Examples.fresh).1 = Ok tt.
Proof.
  exact (proj1 (proj1 (main_loop_returns_on_exit_only
                         Examples.textblob_polarity Examples.polarity_scores
                         "key" "2024-01-01" "2024-01-08" Examples.not_found
                         Examples.only_apple Examples.history Examples.history_1d
                         Examples.no_rounding Examples.running_sum SessionExamples.clock
                         [] Examples.fresh)
                      " 0 "%string ["1"%string] eq_refl)).
Defined.

(** ** The printed report *)

Section PrintedReport.

Import Sentiment Main ReportLines.

Lemma log_nil (st : State) : log st [] = st.
Proof. destruct st. unfold log. cbn. now rewrite app_nil_r. Qed.

Lemma log_log (st : State) (l1 l2 : list Line) :
  log (log st l1) l2 = log st (l1 ++ l2).
Proof. unfold log. cbn. now rewrite map_app, app_assoc. Qed.

Lemma says_print (s : string) : says (print s) [Text s].
Proof. intros st. reflexivity. Qed.

Lemma says_print_line (l : Line) : says (print_line l) [l].
Proof. intros st. reflexivity. Qed.

Lemma says_ret : says (mret tt) [].
Proof. intros st. rewrite log_nil. reflexivity. Qed.

Lemma says_bind (m : M unit) (k : unit -> M unit) (l1 l2 : list Line) :
  says m l1 -> (forall a, says (k a) l2) -> says (m ≫= k) (l1 ++ l2).
Proof.
  intros Hm Hk st. unfold mbind, M_bind. rewrite Hm, Hk, log_log. reflexivity.
Qed.

(** A printing step hands the state with its lines to what follows. *)
Lemma says_then {B} (m : M unit) (k : unit -> M B) (l : list Line) (st : State) :
  says m l -> (m ≫= k) st = k tt (log st l).
Proof. intros Hm. unfold mbind, M_bind. rewrite Hm. reflexivity. Qed.

Lemma says_for_each (lines : list string) : says (for_each lines print) (map Text lines).
Proof.
  induction lines as [|s lines IH]; cbn [for_each map].
  - apply says_ret.
  - apply (says_bind _ _ [Text s] _ (says_print s)). intros _. exact IH.
Qed.

Lemma says_overall (avg_sentiment : float) :
  says (if F.gt avg_sentiment 0.1 then print "  Overall: Positive Sentiment"
        else if F.lt avg_sentiment (-0.1) then print "  Overall: Negative Sentiment"
        else print "  Overall: Neutral Sentiment")
       [Text (overall avg_sentiment)].
Proof.
  unfold overall. destruct (F.gt avg_sentiment 0.1); [apply says_print|].
  destruct (F.lt avg_sentiment (-0.1)); apply says_print.
Qed.

Lemma says_price (current_price : option float) :
  says match current_price with
       | Some p => if F.truthy p then print_line (CurrentPrice p) else mret tt
       | None => mret tt
       end
       (price_lines current_price).
Proof.
  unfold price_lines. destruct current_price as [p|]; [|apply says_ret].
  destruct (F.truthy p); [apply says_print_line|apply says_ret].
Qed.

Lemma says_change (price_changes : option Stock.PriceChange) :
  says match price_changes with
       | Some p =>
           print_line (SevenDayChange (Stock.price_change p) (Stock.percent_change p));;
           print_line (TrendLine (Stock.trend p))
       | None => mret tt
       end
       (change_lines price_changes).
Proof.
  unfold change_lines. destruct price_changes as [p|]; [|apply says_ret].
  apply (says_bind _ _ [_] [_]); [apply says_print_line|intros _; apply says_print_line].
Qed.

(** One headline: its lines, and a type error unless it can be printed. *)
Lemma print_headline_exact (i : nat) (item : ArticleSentiment) (st : State) :
  print_headline i item st
  = (if Report.printable item then Ok tt else Raise TypeError,
     log st (headline_lines i item)).
Proof.
  unfold print_headline, Report.printable, headline_lines.
  destruct (as_title item) as [|t|z]; cbn [Report.sliceable andb];
    try (rewrite log_nil; reflexivity).
  rewrite (says_then _ _ _ _ (says_print _)), (says_then _ _ _ _ (says_print _)).
  destruct (sentiment item).
  - rewrite says_print, !log_log. reflexivity.
  - unfold raise. rewrite !log_log. reflexivity.
Qed.

Lemma print_headlines_all (items : list ArticleSentiment) (i : nat) (st : State) :
  forallb Report.printable items = true ->
  print_headlines i items st = (Ok tt, log st (headlines i items)).
Proof.
  revert i st. induction items as [|item items IH]; intros i st H.
  - cbn. rewrite log_nil. reflexivity.
  - cbn [forallb] in H. apply andb_prop in H. destruct H as [H1 H2].
    cbn [print_headlines headlines]. unfold mbind, M_bind.
    rewrite print_headline_exact, H1, (IH _ _ H2), log_log. reflexivity.
Qed.

Lemma print_headlines_stop (good : list ArticleSentiment) (bad : ArticleSentiment)
    (rest : list ArticleSentiment) (i : nat) (st : State) :
  forallb Report.printable good = true -> Report.printable bad = false ->
  print_headlines i (good ++ bad :: rest) st
  = (Raise TypeError,
     log st (headlines i good ++ headline_lines (i + List.length good) bad)).
Proof.
  revert i st. induction good as [|item good IH]; intros i st Hg Hb.
  - cbn [app print_headlines headlines List.length]. unfold mbind, M_bind.
    rewrite print_headline_exact, Hb, Nat.add_0_r. reflexivity.
  - cbn [forallb] in Hg. apply andb_prop in Hg. destruct Hg as [H1 H2].
    cbn [app print_headlines headlines List.length]. unfold mbind, M_bind.
    rewrite print_headline_exact, H1, (IH _ _ H2 Hb), log_log.
    rewrite <- app_assoc. replace (S i + List.length good) with (i + S (List.length good)) by lia.
    reflexivity.
Qed.

(** The report down to the headlines, and from the conclusion on. *)
Lemma display_results_split (company_name : string) (items : list ArticleSentiment)
    (pos_count neg_count neu_count : nat) (avg_sentiment : float)
    (current_price : option float) (price_changes : option Stock.PriceChange)
    (st : State) :
  display_results company_name items pos_count neg_count neu_count
    avg_sentiment current_price price_changes st
  = match print_headlines 1 items
            (log st (before_headlines pos_count neg_count neu_count avg_sentiment
                       current_price price_changes)) with
    | (Ok _, st1) =>
        (Ok tt,
         log st1 (conclusion_header
                  ++ map Text (conclusion avg_sentiment price_changes) ++ closing))
    | (Raise e, st1) => (Raise e, st1)
    end.
Proof.
  unfold display_results.
  do 7 (rewrite (says_then _ _ _ _ (says_print _)), log_log || rewrite (says_then _ _ _ _ (says_print _))).
  rewrite (says_then _ _ _ _ (says_print_line _)), log_log.
  rewrite (says_then _ _ _ _ (says_overall _)), log_log.
  rewrite (says_then _ _ _ _ (says_print _)), log_log.
  rewrite (says_then _ _ _ _ (says_price _)), log_log.
  rewrite (says_then _ _ _ _ (says_change _)), log_log.
  rewrite (says_then _ _ _ _ (says_print _)), log_log.
  unfold mbind at 1, M_bind at 1.
  replace (_ ++ [Text (Str.nl ++ "Top Headlines:")])%list
    with (before_headlines pos_count neg_count neu_count avg_sentiment
            current_price price_changes)
    by (unfold before_headlines; rewrite <- !app_assoc; reflexivity).
  destruct (print_headlines 1 items _) as [[[]|e] st1]; [|reflexivity].
  do 3 (rewrite (says_then _ _ _ _ (says_print _))). rewrite !log_log.
  rewrite (says_then _ _ _ _ (says_for_each _)), log_log.
  do 2 (rewrite (says_then _ _ _ _ (says_print _)), log_log).
  rewrite says_print, log_log.
  unfold conclusion_header, closing. rewrite <- !app_assoc. reflexivity.
Qed.

(** The whole report when every headline can be printed. *)
Lemma display_results_report (company_name : string) (items : list ArticleSentiment)
    (pos_count neg_count neu_count : nat) (avg_sentiment : float)
    (current_price : option float) (price_changes : option Stock.PriceChange)
    (st : State) :
  forallb Report.printable items = true ->
  display_results company_name items pos_count neg_count neu_count
    avg_sentiment current_price price_changes st
  = (Ok tt,
     log st (report items pos_count neg_count neu_count avg_sentiment
               current_price price_changes
               (conclusion avg_sentiment price_changes))).
Proof.
  intros H. rewrite display_results_split, (print_headlines_all _ _ _ H), !log_log.
  unfold report. rewrite <- ?app_assoc. reflexivity.
Qed.


(** X10. The report is printed to the end exactly when the title of
    every headline is a string and every headline has its sentiment:
    [display_results] then returns, having printed the whole report.  On
    the first headline that lacks one of the two it stops with a type
    error, whatever the figures of the report are: it has then printed
    the report down to the headlines before that one, followed by the
    lines of that headline that come before the failing access, and not
    the conclusion.  In both cases the history is left as it was. *)
Theorem display_results_outcome (company_name : string)
    (items : list ArticleSentiment) (pos_count neg_count neu_count : nat)
    (avg_sentiment : float) (current_price : option float)
    (price_changes : option Stock.PriceChange) (st : State) :
  let shown :=
    display_results company_name items pos_count neg_count neu_count
      avg_sentiment current_price price_changes st in
  (forallb Report.printable items = true ->
   shown = (Ok tt,
            log st (report items pos_count neg_count neu_count avg_sentiment
                      current_price price_changes
                      (conclusion avg_sentiment price_changes)))) /\
  (forall good bad rest,
     items = (good ++ bad :: rest)%list ->
     forallb Report.printable good = true -> Report.printable bad = false ->
     shown = (Raise TypeError,
              log st (before_headlines pos_count neg_count neu_count avg_sentiment
                        current_price price_changes
                      ++ headlines 1 good
                      ++ headline_lines (1 + List.length good) bad))) /\
  shown.1 = (if forallb Report.printable items then Ok tt else Raise TypeError) /\
  search_history shown.2 = search_history st.
Proof.
  cbv zeta. split; [|split; [|split]].
  - apply display_results_report.
  - intros good bad rest -> Hg Hb.
    rewrite display_results_split, (print_headlines_stop _ _ _ _ _ Hg Hb), log_log.
    rewrite <- ?app_assoc. reflexivity.
  - apply display_results_ends.
  - destruct (only_logs_display_results company_name items pos_count neg_count neu_count
                avg_sentiment current_price price_changes st) as [Hh _].
    exact Hh.
Qed.

End PrintedReport.



Lemma display_results_outcome_witness :
  Main.display_results "Apple" [ReportLines.null_title] 1 0 0 0.2 (Some 103%float)
    (Some Examples.rising) Examples.fresh
  = (Raise TypeError,
     ReportLines.log Examples.fresh
       (ReportLines.before_headlines 1 0 0 0.2 (Some 103%float) (Some Examples.rising))).
Proof.
  rewrite (proj1 (proj2 (display_results_outcome "Apple" [ReportLines.null_title] 1 0 0
                           0.2 (Some 103%float) (Some Examples.rising) Examples.fresh))
             [] ReportLines.null_title [] eq_refl eq_refl eq_refl).
  reflexivity.
Defined.
